(** * Password-Checker: a shallow embedding of [app.py]

    The development follows the source file top to bottom: the blacklist
    loader, the leetspeak normaliser, the pattern detector, the scorer and
    the view that calls it.
    Python values are modelled as follows.

    - A Python [str] is the list of its Unicode code points (type [N]).
    - A Python [int] is a [Z]; [len] returns a [Z].
    - A Python [set] of strings is a [gset (list N)], a [dict] is a [gmap].
    - Code that may raise is written in the [result] monad, whose [Raise]
      carries the exception class; an index out of range raises
      [IndexError] exactly as [str.__getitem__] does.
    - The behaviour of the interpreter's built-ins on ASCII code points is
      fixed and written out; beyond ASCII it is given by the Unicode
      character database, which the development takes as a parameter
      ([UnicodeDB]). *)

From Stdlib Require Import ZArith NArith String Ascii List Lia.
From stdpp Require Import base tactics option list gmap sets.

Local Open Scope Z_scope.

(** ** Python strings *)

Abbreviation str := (list N) (only parsing).

(** [py "abc"] is the Python literal ["abc"] for an ASCII literal. *)
Definition py (s : string) : str :=
  map N_of_ascii (list_ascii_of_string s).

(** [len(s)] *)
Definition len {A} (s : list A) : Z := Z.of_nat (length s).

(** ** Exceptions and the result monad

    The exception classes that matter here: [IndexError] for a string
    index out of range, and what [open] or the reading of a text file can
    raise. None of them is a subclass of another. *)

Inductive exn : Set :=
  | IndexError
  | FileNotFoundError
  | PermissionError
  | IsADirectoryError
  | UnicodeDecodeError.

Inductive result (A : Type) : Type :=
  | Return (a : A)
  | Raise (e : exn).
Arguments Return {A} a.
Arguments Raise {A} e.

#[global] Instance result_ret : MRet result := λ A a, Return a.
#[global] Instance result_bind : MBind result := λ A B f m,
  match m with
  | Return a => f a
  | Raise e => Raise e
  end.

(** [s[i]] for a string [s] and an integer [i]; a negative index counts
    from the end, and anything outside the string raises [IndexError]. *)
Definition getitem (s : str) (i : Z) : result N :=
  let j := if i <? 0 then i + len s else i in
  if j <? 0 then Raise IndexError
  else match s !! Z.to_nat j with
       | Some c => Return c
       | None => Raise IndexError
       end.

(** [range(n)]: empty when [n <= 0]. *)
Definition range (n : Z) : list Z := seqZ 0 n.

(** A [for] loop whose body may [break]: the body maps the loop variable
    and the current state to the next state, tagged with whether the loop
    goes on. *)
Inductive flow (S : Type) : Type :=
  | Next (s : S)
  | Break (s : S).
Arguments Next {S} s.
Arguments Break {S} s.

Fixpoint for_in {A S : Type} (xs : list A)
    (body : A → S → result (flow S)) (s : S) : result S :=
  match xs with
  | [] => Return s
  | x :: xs' =>
      match body x s with
      | Raise e => Raise e
      | Return (Break s') => Return s'
      | Return (Next s') => for_in xs' body s'
      end
  end.

(** [sub in s] for strings: substring test. *)
Fixpoint startswith (sub s : str) : bool :=
  match sub, s with
  | [], _ => true
  | _ :: _, [] => false
  | a :: sub', b :: s' => (a =? b)%N && startswith sub' s'
  end.

Fixpoint contains (sub s : str) : bool :=
  startswith sub s ||
  match s with
  | [] => false
  | _ :: s' => contains sub s'
  end.

(** ** The Unicode character database

    What the built-ins answer for code points (or strings with code
    points) outside ASCII. *)
Class UnicodeDB : Type := {
  uni_isupper : N → bool;
  uni_islower : N → bool;
  uni_isdigit : N → bool;
  uni_isspace : N → bool;
  uni_lower : list N → list N;
  uni_nfd : list N → list N;
  uni_category_Mn : N → bool;
}.

(** A database that classifies nothing beyond ASCII; used to run the
    model on concrete ASCII inputs. *)
Definition ascii_only : UnicodeDB := {|
  uni_isupper := λ _, false;
  uni_islower := λ _, false;
  uni_isdigit := λ _, false;
  uni_isspace := λ _, false;
  uni_lower := λ s, s;
  uni_nfd := λ s, s;
  uni_category_Mn := λ _, false;
|}.

Definition is_ascii (c : N) : bool := (c <? 128)%N.

Section Builtins.
Context {U : UnicodeDB}.

(** [c.isupper()], [c.islower()], [c.isdigit()], [c.isspace()] for a
    one-character string [c]. *)
Definition isupper (c : N) : bool :=
  if is_ascii c then (65 <=? c)%N && (c <=? 90)%N else uni_isupper c.

Definition islower (c : N) : bool :=
  if is_ascii c then (97 <=? c)%N && (c <=? 122)%N else uni_islower c.

Definition isdigit (c : N) : bool :=
  if is_ascii c then (48 <=? c)%N && (c <=? 57)%N else uni_isdigit c.

Definition isspace (c : N) : bool :=
  if is_ascii c
  then ((9 <=? c)%N && (c <=? 13)%N) || ((28 <=? c)%N && (c <=? 32)%N)
  else uni_isspace c.

(** [s.lower()]: on an all-ASCII string the letters A-Z are shifted to a-z;
    for any other string the database decides the whole result (the
    interpreter's lowering of a non-ASCII string is context dependent and
    may change its length). *)
Definition ascii_lower (c : N) : N :=
  if (65 <=? c)%N && (c <=? 90)%N then (c + 32)%N else c.

Definition lower (s : str) : str :=
  if forallb is_ascii s then map ascii_lower s else uni_lower s.

(** [s.strip()] *)
Fixpoint lstrip (s : str) : str :=
  match s with
  | [] => []
  | c :: s' => if isspace c then lstrip s' else s
  end.

Definition strip (s : str) : str :=
  reverse (lstrip (reverse (lstrip s))).

(** [unicodedata.normalize("NFD", s)] *)
Definition nfd (s : str) : str :=
  if forallb is_ascii s then s else uni_nfd s.

(** [unicodedata.category(c) == "Mn"] *)
Definition category_is_Mn (c : N) : bool :=
  if is_ascii c then false else uni_category_Mn c.
End Builtins.

(** ** The file system seen by [load_blacklist]

    [open] and the iteration over the file's lines may raise; the file
    system answers, for a path, either an exception raised by [open] or
    the sequence of what the line iterator does: yield a decoded line or
    raise. *)
Definition filesystem : Type := list N → result (list (result (list N))).

(** [str.maketrans(d)] for a dict [d] whose keys are one-character strings:
    a dict from code points to replacement strings. *)
Definition ord (a : ascii) : N := N_of_ascii a.

Definition LEETSPEAK : gmap N (list N) :=
  list_to_map
    [ (ord "@", py "a"); (ord "4", py "a");
      (ord "3", py "e");
      (ord "1", py "i"); (ord "!", py "i");
      (ord "0", py "o");
      (ord "5", py "s"); (ord "$", py "s");
      (ord "7", py "t");
      (ord "+", py "t");
      (ord "8", py "b");
      (ord "6", py "g");
      (ord "9", py "g") ].

(** [s.translate(table)]: a code point in the table is replaced by its
    entry, any other is kept. *)
Definition translate (table : gmap N (list N)) (s : str) : str :=
  concat (map (λ c, default [c] (table !! c)) s).

(** The literals of the source. *)
Definition MSG_EMPTY : str := py "Password cannot be empty.".
Definition MSG_SHORT : str :=
  py "Password is too short " ++ [8212%N] ++ py " use at least 6 characters.".
Definition MSG_COMMON : str :=
  py "This password is commonly used. Choose a different one.".
Definition MSG_LEN12 : str :=
  py "Use 12+ characters " ++ [8212%N] ++ py " longer is stronger.".
Definition MSG_UPPER : str := py "Add an uppercase letter.".
Definition MSG_LOWER : str := py "Add a lowercase letter.".
Definition MSG_DIGIT : str := py "Add a number.".
Definition MSG_SYMBOL : str := py "Add a symbol (like ! or #).".
Definition MSG_LEN16 : str :=
  py "Using 16+ characters would make this stronger.".
Definition MSG_LEN20 : str :=
  py "You can try using a password with 20+ characters to reach strong.".
Definition WARN_REPEAT : str :=
  py "Avoid using repeated characters (e.g., 'aaa' / '111').".
Definition WARN_END_DIGITS : str :=
  py "Avoid ending with multiple digits (common predictable pattern).".
(** [f"Avoid using a common sequence ('{seq}')."] *)
Definition WARN_SEQUENCE (seq : str) : str :=
  py "Avoid using a common sequence ('" ++ seq ++ py "').".
(** [f"Blacklist file not found at {path}."] *)
Definition LOG_NOT_FOUND (path : str) : str :=
  py "Blacklist file not found at " ++ path ++ py ".".

Definition symbols : str :=
  py "!@#$%^&*()-_=+[]{};:'" ++ [34%N] ++ py ",.<>/?\|`~".

Definition sequences : list (list N) :=
  [ py "0123"; py "1234"; py "2345"; py "3456"; py "4567"; py "5678";
    py "6789";
    py "abcd"; py "bcde"; py "cdef"; py "defg"; py "efgh"; py "fghi";
    py "ghij";
    py "qwerty"; py "asdf"; py "zxcv" ].

(** ** The functions of [app.py] *)

Section App.
Context {U : UnicodeDB}.

(** *** [load_blacklist]

    The set [bad_password] is mutated in place inside the [try] block, so
    what was added before an exception is still there when the handler
    runs: the loop returns the set together with the exception that
    ended it, if any. *)
Fixpoint read_lines (f : list (result (list N))) (bad_password : gset (list N))
    : gset (list N) * option exn :=
  match f with
  | [] => (bad_password, None)
  | Raise e :: _ => (bad_password, Some e)
  | Return line :: f' =>
      let password := lower (strip line) in
      if bool_decide (password ≠ [])
      then read_lines f' ({[ password ]} ∪ bad_password)
      else read_lines f' bad_password
  end.

(** The result is the pair of what was logged and what the call returns
    or raises. [except FileNotFoundError] catches that class only. *)
Definition load_blacklist (fs : filesystem) (path : str)
    : list (list N) * result (gset (list N)) :=
  let bad_password : gset (list N) := ∅ in
  let '(bad_password, raised) :=
    match fs path with
    | Raise e => (bad_password, Some e)
    | Return f => read_lines f bad_password
    end in
  match raised with
  | None => ([], Return bad_password)
  | Some FileNotFoundError => ([LOG_NOT_FOUND path], Return bad_password)
  | Some e => ([], Raise e)
  end.

(** *** [normalize] *)
Definition normalize (password : str) : str :=
  let nfd := nfd password in
  let ascii_approx := List.filter (λ c, negb (category_is_Mn c)) nfd in
  translate LEETSPEAK (lower ascii_approx).

(** *** [apply_pattern_penalties] *)
Definition apply_pattern_penalties (password : str)
    : result (Z * list (list N)) :=
  let count := 0 in
  let warnings : list (list N) := [] in
  (* 1) Repeated characters *)
  '(count, warnings) ←
    for_in (range (len password - 2)) (λ i '(count, warnings),
      a ← getitem password i;
      b ← getitem password (i + 1);
      if (a =? b)%N then
        c ← getitem password (i + 2);
        if (b =? c)%N
        then mret (Break (count + 1, warnings ++ [WARN_REPEAT]))
        else mret (Next (count, warnings))
      else mret (Next (count, warnings))) (count, warnings);
  (* 2) Digits at the end *)
  '(count, warnings) ←
    (if len password >=? 6 then
       count_end_digits ←
         for_in (reverse password) (λ character count_end_digits,
           if isdigit character
           then mret (Next (count_end_digits + 1))
           else mret (Break count_end_digits)) 0;
       if count_end_digits >=? 2
       then mret (count + 1, warnings ++ [WARN_END_DIGITS])
       else mret (count, warnings)
     else mret (count, warnings));
  (* 3) Common sequences *)
  let lower := lower password in
  '(count, warnings) ←
    for_in sequences (λ seq '(count, warnings),
      if contains seq lower
      then mret (Break (count + 1, warnings ++ [WARN_SEQUENCE seq]))
      else mret (Next (count, warnings))) (count, warnings);
  mret (count, warnings).

(** *** [evaluate_password]

    [BLACKLIST] is the module-level set read by the function. *)
Context (BLACKLIST : gset (list N)).

Definition evaluate_password (password : str)
    : result (Z * list N * list (list N)) :=
  if bool_decide (password = []) then
    mret (0, py "Weak", [MSG_EMPTY])
  else if len password <? 6 then
    mret (0, py "Weak", [MSG_SHORT])
  else
    let score := 0 in
    let feedback : list (list N) := [] in
    if bool_decide (lower password ∈ BLACKLIST) then
      let feedback := feedback ++ [MSG_COMMON] in
      mret (0, py "Weak", feedback)
    else
      let '(score, feedback) :=
        if len password >=? 20 then (score + 3, feedback)
        else if len password >=? 16 then (score + 2, feedback)
        else if len password >=? 12 then (score + 1, feedback)
        else (score, feedback ++ [MSG_LEN12]) in
      let '(score, feedback) :=
        if existsb isupper password then (score + 1, feedback)
        else (score, feedback ++ [MSG_UPPER]) in
      let '(score, feedback) :=
        if existsb islower password then (score + 1, feedback)
        else (score, feedback ++ [MSG_LOWER]) in
      let '(score, feedback) :=
        if existsb isdigit password then (score + 1, feedback)
        else (score, feedback ++ [MSG_DIGIT]) in
      let '(score, feedback) :=
        if existsb (λ character, contains [character] symbols) password
        then (score + 1, feedback)
        else (score, feedback ++ [MSG_SYMBOL]) in
      '(count, pattern_warnings) ← apply_pattern_penalties password;
      (* Subtract pattern penalties *)
      let score := Z.max 0 (score - count) in
      let feedback := feedback ++ pattern_warnings in
      (* Compute category *)
      let '(category, feedback) :=
        if score <=? 3 then (py "Weak", feedback)
        else if score <=? 5 then
          (py "Okay",
           if len password <? 16 then feedback ++ [MSG_LEN16]
           else if len password <? 20 then feedback ++ [MSG_LEN20]
           else feedback)
        else (py "Strong", feedback) in
      mret (score, category, feedback).
End App.

Arguments evaluate_password {U} BLACKLIST password.

Arguments apply_pattern_penalties {U} password.
Arguments normalize {U} password.
Arguments load_blacklist {U} fs path.

(** *** [index]

    The view reads the request's method and form and hands the template
    name and three keyword arguments to [render_template], which is
    Flask's; the model returns that call. [None] is [None] of [option].
    [request.form.get("password", "")] is a lookup with a default. *)
Record request : Type := {
  method : list N;
  form : gmap (list N) (list N);
}.

Record render_call : Type := {
  template : list N;
  kw_score : option Z;
  kw_category : option (list N);
  kw_feedback : list (list N);
}.

Definition index {U : UnicodeDB} (BLACKLIST : gset (list N))
    (request : request) : result render_call :=
  let score : option Z := None in
  let category : option (list N) := None in
  let feedback : list (list N) := [] in
  '(score, category, feedback) ←
    (if bool_decide (method request = py "POST") then
       let password := default [] (form request !! py "password") in
       '(score, category, feedback) ← evaluate_password BLACKLIST password;
       mret (Some score, Some category, feedback)
     else mret (score, category, feedback));
  mret {| template := py "index.html"; kw_score := score;
          kw_category := category; kw_feedback := feedback |}.

(** ** Vocabulary of the statements *)

(** The three score bands and their labels. *)
Definition tier (score : Z) (category : list N) : Prop :=
  (score ≤ 3 ∧ category = py "Weak") ∨
  (4 ≤ score ≤ 5 ∧ category = py "Okay") ∨
  (6 ≤ score ∧ category = py "Strong").

(** The order Weak < Okay < Strong on the labels (any other string, which
    the scorer never produces, ranks above them). *)
Definition category_rank (category : list N) : nat :=
  if bool_decide (category = py "Weak") then 0
  else if bool_decide (category = py "Okay") then 1
  else if bool_decide (category = py "Strong") then 2
  else 3.

(** An input reaches the scoring stage when none of the three early
    returns of [evaluate_password] is taken. *)
Definition reaches_scoring {U : UnicodeDB} (BLACKLIST : gset (list N))
    (password : list N) : Prop :=
  password ≠ [] ∧ 6 ≤ len password ∧ lower password ∉ BLACKLIST.

(** The points awarded for the length alone. *)
Definition length_bonus (n : Z) : Z :=
  if n >=? 20 then 3 else if n >=? 16 then 2 else if n >=? 12 then 1 else 0.

(** What the pattern detector returns when the repetition check fired
    ([rep]), the trailing-digit check fired ([dig]) and the sequence check
    stopped at [sq]. *)
Definition penalties (rep dig : bool) (sq : option (list N))
    : Z * list (list N) :=
  (Z.b2z rep + Z.b2z dig + (if sq is Some _ then 1 else 0),
   (if rep then [WARN_REPEAT] else []) ++
   (if dig then [WARN_END_DIGITS] else []) ++
   (match sq with Some seq => [WARN_SEQUENCE seq] | None => [] end)).

(** The triple returned on the blacklist branch. *)
Definition REJECTED : Z * list N * list (list N) :=
  (0, py "Weak", [MSG_COMMON]).

(** File systems used as concrete inputs. *)
Definition fs_missing : filesystem := λ _, Raise FileNotFoundError.
Definition fs_denied : filesystem := λ _, Raise PermissionError.
Definition fs_lines (lines : list (list N)) : filesystem :=
  λ _, Return (Return <$> lines).

(** Position [i] starts three equal characters. *)
Definition run3_at (s : list N) (i : Z) : bool :=
  match s !! Z.to_nat i, s !! Z.to_nat (i + 1), s !! Z.to_nat (i + 2) with
  | Some a, Some b, Some c => (a =? b)%N && (b =? c)%N
  | _, _, _ => false
  end.

(** The number of digits a string starts with. *)
Fixpoint leading_digits {U : UnicodeDB} (s : list N) : Z :=
  match s with
  | [] => 0
  | c :: s' => if isdigit c then 1 + leading_digits s' else 0
  end.

(** The four character classes of the scorer, and how many of them a
    password has. *)
Definition has_upper {U : UnicodeDB} (password : list N) : bool :=
  existsb isupper password.
Definition has_lower {U : UnicodeDB} (password : list N) : bool :=
  existsb islower password.
Definition has_digit {U : UnicodeDB} (password : list N) : bool :=
  existsb isdigit password.
Definition has_symbol (password : list N) : bool :=
  existsb (λ character, contains [character] symbols) password.
Definition class_count {U : UnicodeDB} (password : list N) : Z :=
  Z.b2z (has_upper password) + Z.b2z (has_lower password) +
  Z.b2z (has_digit password) + Z.b2z (has_symbol password).

(** The advice of the scoring stage, in the order it is appended; the
    hint added to an "Okay" result; the label of a score. *)
Definition advice {U : UnicodeDB} (password : list N) : list (list N) :=
  (if len password >=? 12 then [] else [MSG_LEN12]) ++
  (if has_upper password then [] else [MSG_UPPER]) ++
  (if has_lower password then [] else [MSG_LOWER]) ++
  (if has_digit password then [] else [MSG_DIGIT]) ++
  (if has_symbol password then [] else [MSG_SYMBOL]).
Definition okay_hint (n : Z) : list (list N) :=
  if n <? 16 then [MSG_LEN16] else if n <? 20 then [MSG_LEN20] else [].
Definition category_of (score : Z) : list N :=
  if score <=? 3 then py "Weak"
  else if score <=? 5 then py "Okay" else py "Strong".

(** A file that opens and whose line iterator does [events] in turn. *)
Definition fs_events (events : list (result (list N))) : filesystem :=
  λ _, Return events.

(** What [translate] does to one code point under the leetspeak table,
    and the ASCII code points. *)
Definition leet (c : N) : list N := default [c] (LEETSPEAK !! c).
Definition ASCII : list N := N.of_nat <$> seq 0 128.

(** A request as the view sees it. *)
Definition POST (fields : gmap (list N) (list N)) : request :=
  {| method := py "POST"; form := fields |}.
Definition GET : request := {| method := py "GET"; form := ∅ |}.

(** ** Loops *)

Section Loops.
Context {A S : Type}.
Implicit Types (xs : list A) (body : A → S → result (flow S)).

(** A loop whose body never raises returns. *)
Lemma for_in_total xs body s :
  (∀ x s0, x ∈ xs → ∃ fl, body x s0 = Return fl) →
  ∃ s', for_in xs body s = Return s'.
Proof.
  revert s. induction xs as [|x xs IH]; intros s Hbody; simpl.
  - by eexists.
  - destruct (Hbody x s (list_elem_of_here x xs)) as [[s'|s'] ->].
    + apply IH. intros y s0 Hy. apply Hbody. by right.
    + by eexists.
Qed.

(** A loop whose body either leaves the state alone and goes on, or
    applies [f] once and breaks, ends in the initial state or in [f] of
    it, for the element it stopped at. *)
Lemma for_in_break_once xs body (f : A → S → S) s :
  (∀ x s0, x ∈ xs →
     body x s0 = Return (Next s0) ∨ body x s0 = Return (Break (f x s0))) →
  for_in xs body s = Return s ∨
  ∃ x, x ∈ xs ∧ for_in xs body s = Return (f x s).
Proof.
  induction xs as [|x xs IH]; intros Hbody; simpl.
  - by left.
  - destruct (Hbody x s (list_elem_of_here x xs)) as [-> | ->].
    + destruct IH as [IH | (y & Hy & IH)].
      * intros y s0 Hy. apply Hbody. by right.
      * by left.
      * right. exists y. split; [by right | done].
    + right. exists x. split; [left | done].
Qed.
End Loops.

Lemma bind_Return {A B : Type} (a : A) (f : A → result B) :
  Return a ≫= f = f a.
Proof. reflexivity. Qed.

(** ** Index accesses *)

Lemma getitem_in_range (s : list N) (i : Z) :
  0 ≤ i < len s → ∃ c, getitem s i = Return c.
Proof.
  intros [Hlo Hhi]. unfold getitem, len in *.
  destruct (i <? 0) eqn:Hneg; [lia|]. rewrite Hneg.
  destruct (lookup_lt_is_Some_2 s (Z.to_nat i)) as [c ->]; [lia|].
  by exists c.
Qed.

Section Detector.
Context {U : UnicodeDB}.

(** The pattern detector never raises, and its result has the shape
    [penalties rep dig sq] with [sq] one of the listed sequences. *)
Lemma apply_pattern_penalties_shape (password : list N) :
  ∃ rep dig sq,
    apply_pattern_penalties password = Return (penalties rep dig sq) ∧
    (∀ seq, sq = Some seq → seq ∈ sequences).
Proof.
  unfold apply_pattern_penalties.
  (* 1) the repetition scan *)
  match goal with
  | |- context [for_in (range ?n) ?body ?s0] =>
      assert (∃ rep : bool, for_in (range n) body s0 =
                Return (Z.b2z rep, if rep then [WARN_REPEAT] else []))
        as [rep ->]
  end.
  { match goal with
    | |- context [for_in ?xs ?body ?s0] =>
        destruct (for_in_break_once xs body
                    (λ _ '(c, w), (c + 1, w ++ [WARN_REPEAT])) s0)
          as [-> | (? & _ & ->)]
    end.
    - intros i [c w] [Hlo Hhi]%elem_of_seqZ.
      destruct (getitem_in_range password i) as [a ->]; [lia|].
      destruct (getitem_in_range password (i + 1)) as [b ->]; [lia|].
      destruct (getitem_in_range password (i + 2)) as [d ->]; [lia|].
      simpl. destruct (a =? b)%N; simpl; [|by left].
      destruct (b =? d)%N; [by right | by left].
    - by exists false.
    - by exists true. }
  (* 2) the trailing digits *)
  rewrite bind_Return; cbv beta iota.
  match goal with
  | |- context [mbind ?k (if ?c then ?m else ?m')] =>
      assert (∃ dig : bool, (if c then m else m') =
                Return (Z.b2z rep + Z.b2z dig,
                        (if rep then [WARN_REPEAT] else []) ++
                        (if dig then [WARN_END_DIGITS] else [])))
        as [dig ->]
  end.
  { destruct (len password >=? 6).
    - match goal with
      | |- context [for_in ?xs ?body ?s0] =>
          destruct (for_in_total xs body s0) as [n ->]
      end.
      + intros c n _. destruct (isdigit c); by eexists.
      + simpl. destruct (n >=? 2); [by exists true|].
        exists false. by rewrite Z.add_0_r, app_nil_r.
    - exists false. by rewrite Z.add_0_r, app_nil_r. }
  (* 3) the known sequences *)
  rewrite bind_Return; cbv beta iota.
  match goal with
  | |- context [for_in ?xs ?body ?s0] =>
      destruct (for_in_break_once xs body
                  (λ seq '(c, w), (c + 1, w ++ [WARN_SEQUENCE seq])) s0)
        as [-> | (seq & Hseq & ->)]
  end.
  - intros seq [c w] _. destruct (contains seq (lower password));
      [by right | by left].
  - exists rep, dig, None. split; [|done].
    unfold penalties. simpl. by rewrite Z.add_0_r, app_nil_r.
  - exists rep, dig, (Some seq). split; [|by intros ? [= <-]].
    unfold penalties. simpl. by rewrite <- app_assoc.
Qed.
End Detector.

(** ** The scorer, branch by branch *)

(** One scoring step: a point, or a piece of advice. *)
Lemma award_point (b : bool) (score : Z) (feedback : list (list N)) msg :
  (if b then (score + 1, feedback) else (score, feedback ++ [msg])) =
  (score + Z.b2z b, feedback ++ if b then [] else [msg]).
Proof. destruct b; simpl; by rewrite ?app_nil_r, ?Z.add_0_r. Qed.

Lemma award_length (n score : Z) (feedback : list (list N)) msg :
  (if n >=? 20 then (score + 3, feedback)
   else if n >=? 16 then (score + 2, feedback)
   else if n >=? 12 then (score + 1, feedback)
   else (score, feedback ++ [msg])) =
  (score + length_bonus n, feedback ++ if n >=? 12 then [] else [msg]).
Proof.
  unfold length_bonus.
  destruct (n >=? 20) eqn:H20; [replace (n >=? 12) with true by lia|];
    [by rewrite app_nil_r|].
  destruct (n >=? 16) eqn:H16; [replace (n >=? 12) with true by lia|];
    [by rewrite app_nil_r|].
  destruct (n >=? 12); by rewrite ?app_nil_r, ?Z.add_0_r.
Qed.

Lemma length_bonus_range n : 0 ≤ length_bonus n ≤ 3.
Proof. unfold length_bonus. repeat case_match; lia. Qed.

Lemma length_bonus_strong n : 2 ≤ length_bonus n → 16 ≤ n.
Proof. unfold length_bonus. repeat case_match; lia. Qed.

Lemma penalties_range rep dig sq : 0 ≤ (penalties rep dig sq).1 ≤ 3.
Proof. destruct rep, dig, sq; simpl; lia. Qed.

Lemma penalties_length rep dig sq :
  (penalties rep dig sq).1 = len (penalties rep dig sq).2.
Proof. by destruct rep, dig, sq. Qed.

Section Scorer.
Context {U : UnicodeDB} (BLACKLIST : gset (list N)).
Implicit Types password : list N.

Lemma evaluate_password_empty :
  evaluate_password BLACKLIST [] = Return (0, py "Weak", [MSG_EMPTY]).
Proof. reflexivity. Qed.

Lemma evaluate_password_short password :
  password ≠ [] → len password < 6 →
  evaluate_password BLACKLIST password = Return (0, py "Weak", [MSG_SHORT]).
Proof.
  intros Hne Hlen. unfold evaluate_password.
  rewrite bool_decide_eq_false_2 by done.
  by replace (len password <? 6) with true by lia.
Qed.

Lemma len_nonempty password : 6 ≤ len password → password ≠ [].
Proof. by intros Hlen ->. Qed.

Lemma evaluate_password_common password :
  6 ≤ len password → lower password ∈ BLACKLIST →
  evaluate_password BLACKLIST password = Return REJECTED.
Proof.
  intros Hlen Hin. unfold evaluate_password.
  rewrite bool_decide_eq_false_2 by by apply len_nonempty.
  replace (len password <? 6) with false by lia.
  by rewrite bool_decide_eq_true_2.
Qed.

(** The scoring stage: the score is the length bonus plus one point per
    character class present, minus the detector's count, floored at 0;
    the label is the band of that score. *)
Lemma evaluate_password_scored password :
  6 ≤ len password → lower password ∉ BLACKLIST →
  ∃ score classes count category feedback,
    evaluate_password BLACKLIST password =
      Return (score, category, feedback) ∧
    score = Z.max 0 (length_bonus (len password) + classes - count) ∧
    0 ≤ classes ≤ 4 ∧ 0 ≤ count ≤ 3 ∧ tier score category.
Proof.
  intros Hlen Hnotin. unfold evaluate_password.
  rewrite bool_decide_eq_false_2 by by apply len_nonempty.
  replace (len password <? 6) with false by lia.
  rewrite bool_decide_eq_false_2 by done.
  rewrite award_length; cbv beta iota zeta.
  do 4 (rewrite award_point; cbv beta iota zeta).
  destruct (apply_pattern_penalties_shape password)
    as (rep & dig & sq & -> & _).
  rewrite bind_Return.
  pose proof (penalties_range rep dig sq) as Hcount.
  destruct (penalties rep dig sq) as [count warnings]; simpl in Hcount.
  cbv beta iota zeta.
  set (b1 := existsb isupper password).
  set (b2 := existsb islower password).
  set (b3 := existsb isdigit password).
  set (b4 := existsb _ password).
  set (score := Z.max 0 _).
  assert (score = Z.max 0 (length_bonus (len password) +
            (Z.b2z b1 + Z.b2z b2 + Z.b2z b3 + Z.b2z b4) - count))
    as Hscore by (unfold score; f_equal; lia).
  assert (0 ≤ Z.b2z b1 + Z.b2z b2 + Z.b2z b3 + Z.b2z b4 ≤ 4) as Hclasses
    by (destruct b1, b2, b3, b4; simpl; lia).
  destruct (score <=? 3) eqn:H3; [|destruct (score <=? 5) eqn:H5];
    eexists score, _, count, _, _;
    (split; [reflexivity|]); (split; [exact Hscore|]);
    (split; [exact Hclasses|]); (split; [exact Hcount|]); unfold tier.
  - left. split; [lia|done].
  - right; left. split; [lia|done].
  - right; right. split; [lia|done].
Qed.

(** The four branches cover every input. *)
Lemma evaluate_password_branch password :
  password = [] ∨
  (password ≠ [] ∧ len password < 6) ∨
  (6 ≤ len password ∧ lower password ∈ BLACKLIST) ∨
  (6 ≤ len password ∧ lower password ∉ BLACKLIST).
Proof.
  destruct password as [|c password]; [by left|right].
  destruct (Z.lt_ge_cases (len (c :: password)) 6); [by left|right].
  destruct (decide (lower (c :: password) ∈ BLACKLIST)); [left|right]; done.
Qed.
End Scorer.

(** ** The labels *)

Lemma tier_bands score category :
  tier score category →
  (category = py "Weak" ↔ score ≤ 3) ∧
  (category = py "Okay" ↔ 4 ≤ score ≤ 5) ∧
  (category = py "Strong" ↔ 6 ≤ score).
Proof.
  intros [[H ->] | [[H ->] | [H ->]]];
    (split; [|split]); (split; [intros Heq | intros Hs]);
    try done; try lia; by vm_compute in Heq.
Qed.

Lemma tier_rank score category :
  tier score category →
  category_rank category =
    if score <=? 3 then 0%nat else if score <=? 5 then 1%nat else 2%nat.
Proof.
  intros [[H ->] | [[H ->] | [H ->]]].
  - by replace (score <=? 3) with true by lia.
  - replace (score <=? 3) with false by lia.
    by replace (score <=? 5) with true by lia.
  - replace (score <=? 3) with false by lia.
    by replace (score <=? 5) with false by lia.
Qed.

(** ** The claims *)

(** C1, as amended: for every string of at least 6 characters whose
    lowercase form is in the blacklist, [evaluate_password] returns exactly
    [(0, "Weak", ["This password is commonly used. Choose a different
    one."])], whatever its character classes. *)
Theorem C1_blacklisted_rejected {U : UnicodeDB} (BLACKLIST : gset (list N))
    (password : list N) :
  6 ≤ len password → lower password ∈ BLACKLIST →
  evaluate_password BLACKLIST password =
    Return (0, py "Weak",
            [py "This password is commonly used. Choose a different one."]).
Proof. apply evaluate_password_common. Qed.

Lemma C1_blacklisted_rejected_witness :
  6 ≤ len (py "PassWord") ∧
  @lower ascii_only (py "PassWord") ∈ ({[ py "password" ]} : gset (list N)) ∧
  @evaluate_password ascii_only {[ py "password" ]} (py "PassWord") =
    Return (0, py "Weak",
            [py "This password is commonly used. Choose a different one."]).
Proof.
  assert (6 ≤ len (py "PassWord")) as Hlen by (vm_compute; discriminate).
  assert (@lower ascii_only (py "PassWord")
            ∈ ({[ py "password" ]} : gset (list N))) as Hin
    by (apply elem_of_singleton; vm_compute; reflexivity).
  split; [exact Hlen|]. split; [exact Hin|].
  exact (@C1_blacklisted_rejected ascii_only _ _ Hlen Hin).
Defined.

(** C1 as stated fails on a blacklisted string shorter than 6 characters:
    with the blacklist file holding the line [abc], the set loaded is
    [{"abc"}], the lowercase form of ["abc"] is in it, and the scorer
    answers with the too-short message, the length test coming first. *)
Lemma C1_counterexample :
  (@load_blacklist ascii_only (fs_lines [py "abc" ++ [10%N]])
     (py "blacklist.txt")).2 = Return {[ py "abc" ]} ∧
  @lower ascii_only (py "abc") ∈ ({[ py "abc" ]} : gset (list N)) ∧
  @evaluate_password ascii_only {[ py "abc" ]} (py "abc") =
    Return (0, py "Weak", [MSG_SHORT]) ∧
  @evaluate_password ascii_only {[ py "abc" ]} (py "abc") ≠
    Return (0, py "Weak",
            [py "This password is commonly used. Choose a different one."]).
Proof.
  split; [|split; [|split]].
  - vm_compute. reflexivity.
  - apply elem_of_singleton. vm_compute. reflexivity.
  - vm_compute. reflexivity.
  - vm_compute. discriminate.
Qed.

(** C2, as amended: ["Tr0ub4dor&3XXXXXXXX"] has 19 characters and the run
    ["XXX"]; when it is not blacklisted, [evaluate_password] returns score
    5, category "Okay", and the feedback made of the repeated-characters
    warning followed by the 20+ characters hint. *)
Theorem C2_troubador_okay {U : UnicodeDB} (BLACKLIST : gset (list N)) :
  lower (py "Tr0ub4dor&3XXXXXXXX") ∉ BLACKLIST →
  evaluate_password BLACKLIST (py "Tr0ub4dor&3XXXXXXXX") =
    Return (5, py "Okay",
      [py "Avoid using repeated characters (e.g., 'aaa' / '111').";
       py "You can try using a password with 20+ characters to reach strong."]).
Proof.
  intros Hnotin. unfold evaluate_password.
  rewrite (bool_decide_eq_false_2 (lower _ ∈ _)) by done.
  vm_compute. reflexivity.
Qed.

Lemma C2_troubador_okay_witness :
  (@lower ascii_only (py "Tr0ub4dor&3XXXXXXXX") ∉ (∅ : gset (list N))) ∧
  @evaluate_password ascii_only ∅ (py "Tr0ub4dor&3XXXXXXXX") =
    Return (5, py "Okay",
      [py "Avoid using repeated characters (e.g., 'aaa' / '111').";
       py "You can try using a password with 20+ characters to reach strong."]).
Proof.
  assert (@lower ascii_only (py "Tr0ub4dor&3XXXXXXXX")
            ∉ (∅ : gset (list N))) as Hnotin
    by apply not_elem_of_empty.
  split; [exact Hnotin|].
  exact (@C2_troubador_okay ascii_only ∅ Hnotin).
Defined.

(** C2 as stated fails: with an empty blacklist the scorer does not return
    [(7, "Strong", [])] for ["Tr0ub4dor&3XXXXXXXX"]. *)
Lemma C2_counterexample :
  len (py "Tr0ub4dor&3XXXXXXXX") = 19 ∧
  @evaluate_password ascii_only ∅ (py "Tr0ub4dor&3XXXXXXXX") ≠
    Return (7, py "Strong", []).
Proof. split; [reflexivity|]. vm_compute. discriminate. Qed.

(** C3, as amended: for every source path whose file is absent ([open]
    raises [FileNotFoundError]), [load_blacklist] logs one warning, returns
    the empty set and does not raise. *)
Theorem C3_missing_file_empty {U : UnicodeDB} (fs : filesystem)
    (path : list N) :
  fs path = Raise FileNotFoundError →
  load_blacklist fs path = ([LOG_NOT_FOUND path], Return ∅).
Proof. intros Hopen. unfold load_blacklist. by rewrite Hopen. Qed.

Lemma C3_missing_file_empty_witness :
  fs_missing (py "blacklist.txt") = Raise FileNotFoundError ∧
  @load_blacklist ascii_only fs_missing (py "blacklist.txt") =
    ([LOG_NOT_FOUND (py "blacklist.txt")], Return ∅).
Proof.
  assert (fs_missing (py "blacklist.txt") = Raise FileNotFoundError)
    as Hopen by reflexivity.
  split; [exact Hopen|].
  exact (@C3_missing_file_empty ascii_only fs_missing _ Hopen).
Defined.

(** C3 as stated fails on a file that exists but cannot be opened: [open]
    raises [PermissionError], which the handler does not catch, so the call
    raises instead of returning the empty set. *)
Lemma C3_counterexample :
  (@load_blacklist ascii_only fs_denied (py "blacklist.txt")).2 =
    Raise PermissionError ∧
  (@load_blacklist ascii_only fs_denied (py "blacklist.txt")).2 ≠ Return ∅.
Proof. split; [reflexivity | discriminate]. Qed.

(** C4: for every input string, [evaluate_password] returns a triple whose
    score lies in the closed range [0, 7]. *)
Theorem C4_score_range {U : UnicodeDB} (BLACKLIST : gset (list N))
    (password : list N) :
  ∃ score category feedback,
    evaluate_password BLACKLIST password =
      Return (score, category, feedback) ∧
    0 ≤ score ≤ 7.
Proof.
  destruct (evaluate_password_branch BLACKLIST password)
    as [-> | [[Hne Hlen] | [[Hlen Hin] | [Hlen Hnotin]]]].
  - eexists _, _, _. split; [apply evaluate_password_empty | lia].
  - eexists _, _, _. split; [by apply evaluate_password_short | lia].
  - eexists _, _, _. split; [by apply evaluate_password_common | lia].
  - destruct (evaluate_password_scored BLACKLIST password Hlen Hnotin)
      as (score & classes & count & category & feedback &
          -> & -> & Hclasses & Hcount & _).
    eexists _, _, _. split; [reflexivity|].
    pose proof (length_bonus_range (len password)). lia.
Qed.

(** C5: for every input that reaches the scoring stage the category is a
    total, monotonic non-decreasing function of the final score: "Weak"
    exactly when the score is at most 3, "Okay" exactly when it is 4 or 5,
    "Strong" exactly when it is at least 6. Stated for two inputs, so that
    equal scores give equal categories and a larger score never gives a
    lower category. *)
Theorem C5_category_of_score {U : UnicodeDB} (BLACKLIST : gset (list N))
    (p q : list N) :
  reaches_scoring BLACKLIST p → reaches_scoring BLACKLIST q →
  ∃ score category feedback score' category' feedback',
    evaluate_password BLACKLIST p = Return (score, category, feedback) ∧
    evaluate_password BLACKLIST q = Return (score', category', feedback') ∧
    (category = py "Weak" ↔ score ≤ 3) ∧
    (category = py "Okay" ↔ 4 ≤ score ≤ 5) ∧
    (category = py "Strong" ↔ 6 ≤ score) ∧
    (score = score' → category = category') ∧
    (score ≤ score' → (category_rank category ≤ category_rank category')%nat).
Proof.
  intros (_ & Hp & Hp') (_ & Hq & Hq').
  destruct (evaluate_password_scored BLACKLIST p Hp Hp')
    as (s & ? & ? & c & f & -> & _ & _ & _ & Ht).
  destruct (evaluate_password_scored BLACKLIST q Hq Hq')
    as (s' & ? & ? & c' & f' & -> & _ & _ & _ & Ht').
  exists s, c, f, s', c', f'.
  destruct (tier_bands s c Ht) as (Hw & Ho & Hs).
  do 5 (split; [done|]). split.
  - intros <-.
    destruct Ht as [[? ->] | [[? ->] | [? ->]]],
             Ht' as [[? ->] | [[? ->] | [? ->]]]; (done || lia).
  - intros Hle. rewrite (tier_rank _ _ Ht), (tier_rank _ _ Ht').
    repeat case_match; lia.
Qed.

Lemma C5_category_of_score_witness :
  @reaches_scoring ascii_only ∅ (py "Summer2024!!") ∧
  @reaches_scoring ascii_only ∅ (py "Tr0ub4dor&3XyZwVu") ∧
  ∃ score category feedback score' category' feedback',
    @evaluate_password ascii_only ∅ (py "Summer2024!!") =
      Return (score, category, feedback) ∧
    @evaluate_password ascii_only ∅ (py "Tr0ub4dor&3XyZwVu") =
      Return (score', category', feedback') ∧
    (category = py "Weak" ↔ score ≤ 3) ∧
    (category = py "Okay" ↔ 4 ≤ score ≤ 5) ∧
    (category = py "Strong" ↔ 6 ≤ score) ∧
    (score = score' → category = category') ∧
    (score ≤ score' → (category_rank category ≤ category_rank category')%nat).
Proof.
  assert (@reaches_scoring ascii_only ∅ (py "Summer2024!!")) as Hp.
  { split; [discriminate|]. split; [vm_compute; discriminate|].
    apply not_elem_of_empty. }
  assert (@reaches_scoring ascii_only ∅ (py "Tr0ub4dor&3XyZwVu")) as Hq.
  { split; [discriminate|]. split; [vm_compute; discriminate|].
    apply not_elem_of_empty. }
  split; [exact Hp|]. split; [exact Hq|].
  exact (@C5_category_of_score ascii_only ∅ _ _ Hp Hq).
Defined.

(** C6: for every input string, [apply_pattern_penalties] adds at most one
    point per check (repeated run, trailing digits, known sequence), so the
    count is one of 0, 1, 2, 3, and the warnings come in the order of the
    checks: repetition, then trailing digits, then the sequence found. *)
Theorem C6_penalties_capped_and_ordered {U : UnicodeDB} (password : list N) :
  ∃ (rep dig : bool) (sq : option (list N)),
    apply_pattern_penalties password =
      Return (Z.b2z rep + Z.b2z dig + (if sq is Some _ then 1 else 0),
              (if rep then [WARN_REPEAT] else []) ++
              (if dig then [WARN_END_DIGITS] else []) ++
              (if sq is Some seq then [WARN_SEQUENCE seq] else [])) ∧
    (∀ seq, sq = Some seq → seq ∈ sequences) ∧
    Z.b2z rep + Z.b2z dig + (if sq is Some _ then 1 else 0) ∈ [0; 1; 2; 3].
Proof.
  destruct (apply_pattern_penalties_shape password)
    as (rep & dig & sq & Heq & Hsq).
  exists rep, dig, sq. split; [exact Heq|]. split; [exact Hsq|].
  destruct rep, dig, sq; simpl; set_solver.
Qed.

(** C7: the scorer tests the blacklist with the raw lowercased password,
    never with [normalize(password)]: two blacklists that agree on the
    lowercased password give the same result, whatever they hold of its
    normalised form; and there is a password (["p@ssw0rd"], against the
    blacklist [{"password"}]) whose normalised form is blacklisted and
    which is scored instead of being rejected by the blacklist branch. *)
Theorem C7_blacklist_test_ignores_normalize :
  (∀ (U : UnicodeDB) (BLACKLIST BLACKLIST' : gset (list N))
     (password : list N),
     (lower password ∈ BLACKLIST ↔ lower password ∈ BLACKLIST') →
     evaluate_password BLACKLIST password =
       evaluate_password BLACKLIST' password) ∧
  (∃ (BLACKLIST : gset (list N)) (password : list N), ∀ U : UnicodeDB,
     normalize password ∈ BLACKLIST ∧
     (lower password ∉ BLACKLIST) ∧
     evaluate_password BLACKLIST password =
       Return (3, py "Weak", [MSG_LEN12; MSG_UPPER]) ∧
     evaluate_password BLACKLIST password ≠ Return REJECTED).
Proof.
  split.
  - intros U BL BL' password Hiff. unfold evaluate_password.
    by rewrite (bool_decide_ext _ _ Hiff).
  - exists {[ py "password" ]}, (py "p@ssw0rd"). intros U.
    assert (lower (py "p@ssw0rd") ∉ ({[ py "password" ]} : gset (list N)))
      as Hnotin.
    { rewrite elem_of_singleton. vm_compute. discriminate. }
    assert (evaluate_password {[ py "password" ]} (py "p@ssw0rd") =
              Return (3, py "Weak", [MSG_LEN12; MSG_UPPER])) as Heval.
    { unfold evaluate_password.
      rewrite (bool_decide_eq_false_2 (lower _ ∈ _)) by done.
      vm_compute. reflexivity. }
    split; [|split; [done|split; [done|]]].
    + apply elem_of_singleton. vm_compute. reflexivity.
    + rewrite Heval. vm_compute. discriminate.
Qed.

Lemma C7_blacklist_test_ignores_normalize_witness :
  (@lower ascii_only (py "p@ssw0rd") ∈ (∅ : gset (list N)) ↔
   @lower ascii_only (py "p@ssw0rd") ∈ ({[ py "password" ]} : gset (list N))) ∧
  @normalize ascii_only (py "p@ssw0rd") ∈ ({[ py "password" ]} : gset (list N)) ∧
  @evaluate_password ascii_only ∅ (py "p@ssw0rd") =
    @evaluate_password ascii_only {[ py "password" ]} (py "p@ssw0rd").
Proof.
  assert (@lower ascii_only (py "p@ssw0rd") ∈ (∅ : gset (list N)) ↔
          @lower ascii_only (py "p@ssw0rd")
            ∈ ({[ py "password" ]} : gset (list N))) as Hiff.
  { rewrite elem_of_singleton. split.
    - intros []%not_elem_of_empty.
    - vm_compute. discriminate. }
  split; [exact Hiff|]. split.
  - apply elem_of_singleton. vm_compute. reflexivity.
  - exact (proj1 C7_blacklist_test_ignores_normalize ascii_only _ _ _ Hiff).
Defined.

(** C8: [evaluate_password] is total: for every input string (empty, of any
    length, of any code points, under any Unicode database and blacklist)
    it returns a triple and raises nothing; the same holds of the pattern
    detector, whose index accesses are therefore all in bounds. *)
Theorem C8_evaluate_password_total {U : UnicodeDB}
    (BLACKLIST : gset (list N)) (password : list N) :
  (∃ score category feedback,
     evaluate_password BLACKLIST password =
       Return (score, category, feedback)) ∧
  (∃ count warnings,
     apply_pattern_penalties password = Return (count, warnings)) ∧
  (∀ e, evaluate_password BLACKLIST password ≠ Raise e).
Proof.
  assert (∃ score category feedback,
            evaluate_password BLACKLIST password =
              Return (score, category, feedback)) as Hret.
  { destruct (evaluate_password_branch BLACKLIST password)
      as [-> | [[Hne Hlen] | [[Hlen Hin] | [Hlen Hnotin]]]].
    - eexists _, _, _. apply evaluate_password_empty.
    - eexists _, _, _. by apply evaluate_password_short.
    - eexists _, _, _. by apply evaluate_password_common.
    - destruct (evaluate_password_scored BLACKLIST password Hlen Hnotin)
        as (score & _ & _ & category & feedback & -> & _).
      by eexists _, _, _. }
  split; [exact Hret|]. split.
  - destruct (apply_pattern_penalties_shape password)
      as (rep & dig & sq & -> & _).
    by eexists _, _.
  - destruct Hret as (? & ? & ? & ->). discriminate.
Qed.

(** C9: for every input string, the pair returned by
    [apply_pattern_penalties] has [count = len(warnings)], with [count] a
    non-negative integer. *)
Theorem C9_count_is_number_of_warnings {U : UnicodeDB} (password : list N) :
  ∃ count warnings,
    apply_pattern_penalties password = Return (count, warnings) ∧
    count = len warnings ∧ 0 ≤ count.
Proof.
  destruct (apply_pattern_penalties_shape password)
    as (rep & dig & sq & -> & _).
  eexists _, _. split; [reflexivity|]. split.
  - apply penalties_length.
  - apply penalties_range.
Qed.

(** C10: for every input string, if [evaluate_password] returns category
    "Strong" then the input has at least 16 characters. *)
Theorem C10_strong_needs_16 {U : UnicodeDB} (BLACKLIST : gset (list N))
    (password : list N) (score : Z) (feedback : list (list N)) :
  evaluate_password BLACKLIST password =
    Return (score, py "Strong", feedback) →
  16 ≤ len password.
Proof.
  destruct (evaluate_password_branch BLACKLIST password)
    as [-> | [[Hne Hlen] | [[Hlen Hin] | [Hlen Hnotin]]]].
  - rewrite evaluate_password_empty. intros Heq. by vm_compute in Heq.
  - rewrite evaluate_password_short by done.
    intros Heq. by vm_compute in Heq.
  - rewrite evaluate_password_common by done.
    intros Heq. by vm_compute in Heq.
  - destruct (evaluate_password_scored BLACKLIST password Hlen Hnotin)
      as (s & classes & count & category & fb &
          -> & -> & Hclasses & Hcount & Ht).
    intros [= Hscore -> _].
    apply tier_bands in Ht as (_ & _ & [Hstrong _]).
    specialize (Hstrong eq_refl).
    apply length_bonus_strong. lia.
Qed.

Lemma C10_strong_needs_16_witness :
  @evaluate_password ascii_only ∅ (py "Tr0ub4dor&3XyZwVu") =
    Return (6, py "Strong", []) ∧
  16 ≤ len (py "Tr0ub4dor&3XyZwVu").
Proof.
  assert (@evaluate_password ascii_only ∅ (py "Tr0ub4dor&3XyZwVu") =
            Return (6, py "Strong", [])) as Heval
    by (vm_compute; reflexivity).
  split; [exact Heval|].
  exact (@C10_strong_needs_16 ascii_only ∅ _ _ _ Heval).
Defined.

(** ** The spec's remaining concrete scenarios, run on the model *)

Example scenario_aaabbbccc111 :
  @evaluate_password ascii_only ∅ (py "aaabbbccc111") =
    Return (1, py "Weak",
            [MSG_UPPER; MSG_SYMBOL; WARN_REPEAT; WARN_END_DIGITS]).
Proof. vm_compute. reflexivity. Qed.

Example scenario_Summer2024 :
  @evaluate_password ascii_only ∅ (py "Summer2024!!") =
    Return (5, py "Okay", [MSG_LEN16]).
Proof. vm_compute. reflexivity. Qed.

Example scenario_sequence_named :
  @apply_pattern_penalties ascii_only (py "xxQwErTy1234") =
    Return (2, [WARN_END_DIGITS; WARN_SEQUENCE (py "1234")]).
Proof. vm_compute. reflexivity. Qed.

(** * Further properties of the code *)

(** ** The loops, exactly *)

Section LoopsExact.
Context {A S : Type}.

(** A loop that breaks at the first element satisfying [P], applying [f]
    there, and otherwise leaves the state alone. *)
Lemma for_in_find (xs : list A) (body : A → S → result (flow S))
    (P : A → bool) (f : A → S → S) (s : S) :
  (∀ x s0, x ∈ xs →
     body x s0 = Return (if P x then Break (f x s0) else Next s0)) →
  for_in xs body s =
    Return (match List.find P xs with Some x => f x s | None => s end).
Proof.
  induction xs as [|x xs IH]; intros Hbody; simpl; [done|].
  rewrite (Hbody x s (list_elem_of_here x xs)).
  destruct (P x); [done|].
  apply IH. intros y s0 Hy. apply Hbody. by right.
Qed.

Lemma find_existsb (xs : list A) (P : A → bool) :
  (if List.find P xs is Some _ then true else false) = existsb P xs.
Proof. induction xs as [|x xs IH]; simpl; [done|]. by destruct (P x). Qed.

Lemma find_first (xs : list A) (P : A → bool) (x : A) :
  List.find P xs = Some x ↔
  ∃ before after, xs = before ++ x :: after ∧ P x = true ∧
                  ∀ y, y ∈ before → P y = false.
Proof.
  induction xs as [|a xs IH]; simpl.
  - split; [done|]. intros (before & after & Heq & _).
    by destruct before.
  - destruct (P a) eqn:Ha.
    + split.
      * intros [= <-]. exists [], xs. split; [done|]. split; [done|].
        by intros y ?%elem_of_nil.
      * intros ([|b before] & after & Heq & Hx & Hbefore).
        { by injection Heq as <- _. }
        injection Heq as <- _.
        rewrite Hbefore in Ha by left. done.
    + rewrite IH. split.
      * intros (before & after & -> & Hx & Hbefore).
        exists (a :: before), after. split; [done|]. split; [done|].
        intros y [-> | Hy]%elem_of_cons; auto.
      * intros ([|b before] & after & Heq & Hx & Hbefore).
        { injection Heq as -> _. congruence. }
        injection Heq as <- ->.
        exists before, after. split; [done|]. split; [done|].
        intros y Hy. apply Hbefore. by right.
Qed.
End LoopsExact.

Lemma getitem_lookup (s : list N) (i : Z) (c : N) :
  0 ≤ i → s !! Z.to_nat i = Some c → getitem s i = Return c.
Proof.
  intros Hi Hc. unfold getitem.
  destruct (i <? 0) eqn:Hneg; [lia|]. by rewrite Hneg, Hc.
Qed.

Section DetectorExact.
Context {U : UnicodeDB}.

Lemma count_end_digits_loop (s : list N) (n : Z) :
  for_in s (λ character count_end_digits,
     if isdigit character
     then mret (Next (count_end_digits + 1))
     else mret (Break count_end_digits)) n =
  Return (n + leading_digits s).
Proof.
  revert n. induction s as [|c s IH]; intros n; simpl.
  - by rewrite Z.add_0_r.
  - destruct (isdigit c); simpl.
    + rewrite IH. f_equal. lia.
    + by rewrite Z.add_0_r.
Qed.

(** What each of the three checks computes. *)
Lemma apply_pattern_penalties_exact (password : list N) :
  apply_pattern_penalties password =
    Return (penalties
      (existsb (run3_at password) (range (len password - 2)))
      ((len password >=? 6) && (leading_digits (reverse password) >=? 2))
      (List.find (λ seq, contains seq (lower password)) sequences)).
Proof.
  unfold apply_pattern_penalties.
  match goal with
  | |- context [for_in (range ?n) ?body ?s0] =>
      rewrite (for_in_find (range n) body (run3_at password)
                 (λ _ '(c, w), (c + 1, w ++ [WARN_REPEAT])) s0)
  end.
  2:{ intros i [c w] [Hlo Hhi]%elem_of_seqZ. unfold len in *.
      destruct (lookup_lt_is_Some_2 password (Z.to_nat i)) as [a Ha];
        [lia|].
      destruct (lookup_lt_is_Some_2 password (Z.to_nat (i + 1))) as [b Hb];
        [lia|].
      destruct (lookup_lt_is_Some_2 password (Z.to_nat (i + 2))) as [d Hd];
        [lia|].
      rewrite (getitem_lookup password i a) by (lia || done).
      rewrite (getitem_lookup password (i + 1) b) by (lia || done).
      rewrite (getitem_lookup password (i + 2) d) by (lia || done).
      unfold run3_at. rewrite Ha, Hb, Hd. simpl.
      destruct (a =? b)%N; simpl; [|done]. by destruct (b =? d)%N. }
  rewrite bind_Return.
  rewrite <- (find_existsb (range (len password - 2)) (run3_at password)).
  destruct (List.find (run3_at password) (range (len password - 2)))
    as [i|]; cbv beta iota;
  (destruct (len password >=? 6);
   [rewrite count_end_digits_loop, bind_Return, Z.add_0_l;
    destruct (leading_digits (reverse password) >=? 2)|];
   rewrite bind_Return; cbv beta iota;
   match goal with
   | |- context [for_in ?xs ?body ?s0] =>
       rewrite (for_in_find xs body
                  (λ seq, contains seq (lower password))
                  (λ seq '(c, w), (c + 1, w ++ [WARN_SEQUENCE seq])) s0)
         by (by intros seq [c w] _; destruct (contains seq (lower password)))
   end;
   rewrite bind_Return;
   by destruct (List.find _ sequences)).
Qed.
End DetectorExact.

(** ** What the checks mean *)

Lemma startswith_iff (sub s : list N) :
  startswith sub s = true ↔ ∃ r, s = sub ++ r.
Proof.
  revert s. induction sub as [|a sub IH]; intros s; simpl.
  - split; [by exists s | done].
  - destruct s as [|b s].
    + split; [done | by intros [r Hr]].
    + rewrite andb_true_iff, N.eqb_eq, IH. split.
      * intros [-> [r ->]]. by exists r.
      * intros [r [= -> ->]]. split; [done | by exists r].
Qed.

(** [contains sub s] is the substring test. *)
Lemma contains_iff (sub s : list N) :
  contains sub s = true ↔ ∃ l r, s = l ++ sub ++ r.
Proof.
  induction s as [|b s IH]; simpl; rewrite orb_true_iff, startswith_iff.
  - split.
    + intros [[r Hr] | ?]; [|done]. by exists [], r.
    + intros ([|? l] & r & Hlr); [|done]. left. by exists r.
  - rewrite IH. split.
    + intros [[r Hr] | (l & r & ->)]; [by exists [], r|].
      by exists (b :: l), r.
    + intros ([|c l] & r & Hlr); [left; by exists r|].
      right. injection Hlr as -> ->. by exists l, r.
Qed.

Lemma run3_exists (s : list N) :
  existsb (run3_at s) (range (len s - 2)) = true ↔
  ∃ (i : nat) (c : N),
    s !! i = Some c ∧ s !! S i = Some c ∧ s !! S (S i) = Some c.
Proof.
  rewrite existsb_exists. unfold range, len. split.
  - intros (x & [Hlo Hhi]%list_elem_of_In%elem_of_seqZ & Hrun).
    unfold run3_at in Hrun.
    replace (Z.to_nat (x + 1)) with (S (Z.to_nat x)) in Hrun by lia.
    replace (Z.to_nat (x + 2)) with (S (S (Z.to_nat x))) in Hrun by lia.
    destruct (s !! Z.to_nat x) as [a|] eqn:Ha; [|done].
    destruct (s !! S (Z.to_nat x)) as [b|] eqn:Hb; [|done].
    destruct (s !! S (S (Z.to_nat x))) as [c|] eqn:Hc; [|done].
    apply andb_true_iff in Hrun as [->%N.eqb_eq ->%N.eqb_eq].
    by exists (Z.to_nat x), c.
  - intros (i & c & Ha & Hb & Hc).
    pose proof (lookup_lt_Some _ _ _ Hc) as Hlt.
    exists (Z.of_nat i). split.
    + apply list_elem_of_In, elem_of_seqZ. lia.
    + unfold run3_at.
      replace (Z.to_nat (Z.of_nat i + 1)) with (S i) by lia.
      replace (Z.to_nat (Z.of_nat i + 2)) with (S (S i)) by lia.
      rewrite Nat2Z.id, Ha, Hb, Hc. by rewrite N.eqb_refl.
Qed.

Section Meaning.
Context {U : UnicodeDB}.

Lemma leading_digits_nonneg (s : list N) : 0 ≤ leading_digits s.
Proof. induction s as [|c s IH]; simpl; [done|]. destruct (isdigit c); lia. Qed.

Lemma trailing_digits_two (s : list N) :
  (leading_digits (reverse s) >=? 2) = true ↔
  ∃ rest a b, s = rest ++ [a; b] ∧ isdigit a = true ∧ isdigit b = true.
Proof.
  split.
  - intros Hge. rewrite <- (reverse_involutive s).
    destruct (reverse s) as [|b [|a r]]; simpl in Hge; [lia| |].
    + destruct (isdigit b); lia.
    + destruct (isdigit b) eqn:Hb; [|lia].
      destruct (isdigit a) eqn:Ha; [|lia].
      exists (reverse r), a, b. split; [|done].
      by rewrite !reverse_cons, <- app_assoc.
  - intros (rest & a & b & -> & Ha & Hb).
    rewrite reverse_app. simpl. rewrite Ha, Hb.
    pose proof (leading_digits_nonneg (reverse rest)). lia.
Qed.
End Meaning.

(** The three warnings are told apart by their text. *)
Lemma WARN_SEQUENCE_inj (seq seq' : list N) :
  WARN_SEQUENCE seq = WARN_SEQUENCE seq' → seq = seq'.
Proof.
  unfold WARN_SEQUENCE. intros Heq.
  apply app_inv_head in Heq. by apply app_inv_tail in Heq.
Qed.

Lemma WARN_REPEAT_not_sequence (seq : list N) :
  WARN_REPEAT ≠ WARN_SEQUENCE seq.
Proof. intros Heq. vm_compute in Heq. discriminate. Qed.

Lemma WARN_END_DIGITS_not_sequence (seq : list N) :
  WARN_END_DIGITS ≠ WARN_SEQUENCE seq.
Proof. intros Heq. vm_compute in Heq. discriminate. Qed.

Lemma elem_of_optional {A : Type} (b : bool) (x y : A) :
  x ∈ (if b then [y] else []) ↔ b = true ∧ x = y.
Proof.
  destruct b; [rewrite list_elem_of_singleton | rewrite elem_of_nil];
    intuition congruence.
Qed.

Lemma elem_of_named (x : list N) (sq : option (list N)) :
  x ∈ (match sq with Some seq => [WARN_SEQUENCE seq] | None => [] end) ↔
  ∃ seq, sq = Some seq ∧ x = WARN_SEQUENCE seq.
Proof.
  destruct sq as [seq|];
    [rewrite list_elem_of_singleton | rewrite elem_of_nil]; split.
  - intros ->. by exists seq.
  - by intros (? & [= <-] & ->).
  - done.
  - by intros (? & [=] & _).
Qed.

Lemma penalties_repeat rep dig sq :
  WARN_REPEAT ∈ (penalties rep dig sq).2 ↔ rep = true.
Proof.
  unfold penalties; simpl.
  rewrite !elem_of_app, !elem_of_optional, elem_of_named.
  assert (WARN_REPEAT ≠ WARN_END_DIGITS) by (by vm_compute).
  split; [|by auto].
  intros [[? _] | [[_ ?] | (seq & _ & ?)]]; [done|done|].
  by destruct (WARN_REPEAT_not_sequence seq).
Qed.

Lemma penalties_end_digits rep dig sq :
  WARN_END_DIGITS ∈ (penalties rep dig sq).2 ↔ dig = true.
Proof.
  unfold penalties; simpl.
  rewrite !elem_of_app, !elem_of_optional, elem_of_named.
  assert (WARN_END_DIGITS ≠ WARN_REPEAT) by (by vm_compute).
  split; [|by auto].
  intros [[_ ?] | [[? _] | (seq & _ & ?)]]; [done|done|].
  by destruct (WARN_END_DIGITS_not_sequence seq).
Qed.

Lemma penalties_sequence rep dig sq seq :
  WARN_SEQUENCE seq ∈ (penalties rep dig sq).2 ↔ sq = Some seq.
Proof.
  unfold penalties; simpl.
  rewrite !elem_of_app, !elem_of_optional, elem_of_named.
  split.
  - intros [[_ Heq] | [[_ Heq] | (seq' & -> & Heq)]].
    + by destruct (WARN_REPEAT_not_sequence seq).
    + by destruct (WARN_END_DIGITS_not_sequence seq).
    + f_equal. symmetry. by apply WARN_SEQUENCE_inj.
  - intros ->. right; right. by exists seq.
Qed.

(** ** The pattern detector, check by check *)

(** X1: the repeated-characters warning is issued exactly when the
    password has three equal characters in a row (compared as they are,
    without lowering the case). *)
Theorem X1_repeat_warning_iff {U : UnicodeDB} (password : list N) :
  ∃ count warnings,
    apply_pattern_penalties password = Return (count, warnings) ∧
    (WARN_REPEAT ∈ warnings ↔
     ∃ (i : nat) (c : N),
       password !! i = Some c ∧ password !! S i = Some c ∧
       password !! S (S i) = Some c).
Proof.
  rewrite apply_pattern_penalties_exact.
  match goal with
  | |- context [Return (penalties ?r ?d ?q)] =>
      exists (penalties r d q).1, (penalties r d q).2
  end.
  split; [reflexivity|].
  by rewrite penalties_repeat, run3_exists.
Qed.

(** X2: the trailing-digits warning is issued exactly when the password
    has at least 6 characters and its last two characters are digits. *)
Theorem X2_end_digits_warning_iff {U : UnicodeDB} (password : list N) :
  ∃ count warnings,
    apply_pattern_penalties password = Return (count, warnings) ∧
    (WARN_END_DIGITS ∈ warnings ↔
     6 ≤ len password ∧
     ∃ rest a b, password = rest ++ [a; b] ∧
                 isdigit a = true ∧ isdigit b = true).
Proof.
  rewrite apply_pattern_penalties_exact.
  match goal with
  | |- context [Return (penalties ?r ?d ?q)] =>
      exists (penalties r d q).1, (penalties r d q).2
  end.
  split; [reflexivity|].
  rewrite penalties_end_digits, andb_true_iff, trailing_digits_two.
  assert ((len password >=? 6) = true ↔ 6 ≤ len password) as -> by lia.
  done.
Qed.

(** X3: the warning naming the sequence [seq] is issued exactly when [seq]
    is the first entry of the list of known sequences, in the list's
    order, that occurs as a substring of the lowercased password. *)
Theorem X3_sequence_warning_iff {U : UnicodeDB} (password seq : list N) :
  ∃ count warnings,
    apply_pattern_penalties password = Return (count, warnings) ∧
    (WARN_SEQUENCE seq ∈ warnings ↔
     ∃ before after,
       sequences = before ++ seq :: after ∧
       (∃ l r, lower password = l ++ seq ++ r) ∧
       ∀ s, s ∈ before → ¬ ∃ l r, lower password = l ++ s ++ r).
Proof.
  rewrite apply_pattern_penalties_exact.
  match goal with
  | |- context [Return (penalties ?r ?d ?q)] =>
      exists (penalties r d q).1, (penalties r d q).2
  end.
  split; [reflexivity|].
  rewrite penalties_sequence, find_first.
  split; intros (before & after & Hseq & Hin & Hbefore);
    exists before, after; (split; [exact Hseq|]).
  - split; [by apply contains_iff|].
    intros s Hs Hsub%contains_iff. by rewrite Hbefore in Hsub.
  - split; [by apply contains_iff|].
    intros s Hs. destruct (contains s (lower password)) eqn:Hc; [|done].
    destruct (Hbefore s Hs). by apply contains_iff.
Qed.

(** ** The scoring stage, exactly *)

Section ScorerExact.
Context {U : UnicodeDB} (BLACKLIST : gset (list N)).

(** Past the early returns, the score is the length bonus plus the number
    of character classes present minus the detector's count, floored at 0;
    the feedback is the advice, then the detector's warnings, then the
    hint of an "Okay" result. *)
Lemma evaluate_password_scored_exact (password : list N) count warnings :
  6 ≤ len password → lower password ∉ BLACKLIST →
  apply_pattern_penalties password = Return (count, warnings) →
  evaluate_password BLACKLIST password =
    Return (let score := Z.max 0 (length_bonus (len password) +
                                  class_count password - count) in
            (score, category_of score,
             advice password ++ warnings ++
             if (4 <=? score) && (score <=? 5)
             then okay_hint (len password) else [])).
Proof.
  intros Hlen Hnotin Hpen. unfold evaluate_password.
  rewrite bool_decide_eq_false_2 by by apply len_nonempty.
  replace (len password <? 6) with false by lia.
  rewrite bool_decide_eq_false_2 by done.
  rewrite award_length; cbv beta iota zeta.
  do 4 (rewrite award_point; cbv beta iota zeta).
  rewrite Hpen, bind_Return. cbv beta iota zeta.
  fold (has_upper password) (has_lower password) (has_digit password)
       (has_symbol password).
  match goal with
  | |- context [Z.max 0 ?e] =>
      replace e with (length_bonus (len password) + class_count password
                      - count) by (unfold class_count; lia)
  end.
  set (score := Z.max 0 _).
  unfold category_of, okay_hint, advice.
  destruct (score <=? 3) eqn:H3; [|destruct (score <=? 5) eqn:H5].
  - replace (4 <=? score) with false by lia. simpl.
    by rewrite <- !app_assoc, app_nil_r.
  - replace (4 <=? score) with true by lia. simpl.
    destruct (len password <? 16); [|destruct (len password <? 20)];
      by rewrite <- ?app_assoc, ?app_nil_r.
  - replace (4 <=? score) with true by lia. simpl.
    by rewrite <- !app_assoc, app_nil_r.
Qed.
End ScorerExact.

(** ** Telling the messages apart *)

Lemma elem_of_unless {A : Type} (b : bool) (x y : A) :
  x ∈ (if b then [] else [y]) ↔ b = false ∧ x = y.
Proof.
  destruct b; [rewrite elem_of_nil | rewrite list_elem_of_singleton];
    intuition congruence.
Qed.

(** Closes a goal with two different message texts assumed equal. *)
Ltac msg_discr :=
  match goal with
  | H : @eq (list N) _ _ |- _ => vm_compute in H; discriminate H
  end.

Section Messages.
Context {U : UnicodeDB}.

Lemma elem_of_advice (password m : list N) :
  m ∈ advice password ↔
  (len password < 12 ∧ m = MSG_LEN12) ∨
  (has_upper password = false ∧ m = MSG_UPPER) ∨
  (has_lower password = false ∧ m = MSG_LOWER) ∨
  (has_digit password = false ∧ m = MSG_DIGIT) ∨
  (has_symbol password = false ∧ m = MSG_SYMBOL).
Proof.
  unfold advice. rewrite !elem_of_app, !elem_of_unless.
  assert ((len password >=? 12) = false ↔ len password < 12) as -> by lia.
  done.
Qed.

Lemma elem_of_okay_hint (n : Z) (m : list N) :
  m ∈ okay_hint n ↔
  (n < 16 ∧ m = MSG_LEN16) ∨ (16 ≤ n < 20 ∧ m = MSG_LEN20).
Proof.
  unfold okay_hint.
  destruct (n <? 16) eqn:H16; [|destruct (n <? 20) eqn:H20];
    rewrite ?list_elem_of_singleton, ?elem_of_nil; intuition lia.
Qed.

Lemma elem_of_penalties rep dig sq (m : list N) :
  m ∈ (penalties rep dig sq).2 ↔
  (rep = true ∧ m = WARN_REPEAT) ∨
  (dig = true ∧ m = WARN_END_DIGITS) ∨
  (∃ seq, sq = Some seq ∧ m = WARN_SEQUENCE seq).
Proof.
  unfold penalties; simpl.
  by rewrite !elem_of_app, !elem_of_optional, elem_of_named.
Qed.
Lemma elem_of_hint (c : bool) (n : Z) (m : list N) :
  m ∈ (if c then okay_hint n else []) ↔
  c = true ∧ ((n < 16 ∧ m = MSG_LEN16) ∨ (16 ≤ n < 20 ∧ m = MSG_LEN20)).
Proof.
  destruct c; [rewrite elem_of_okay_hint | rewrite elem_of_nil];
    intuition congruence.
Qed.

(** Where a message of the scoring stage can come from. *)
Lemma elem_of_scoring_feedback (password : list N) rep dig sq (c : bool)
    (m : list N) :
  m ∈ advice password ++ (penalties rep dig sq).2 ++
      (if c then okay_hint (len password) else []) ↔
  ((len password < 12 ∧ m = MSG_LEN12) ∨
   (has_upper password = false ∧ m = MSG_UPPER) ∨
   (has_lower password = false ∧ m = MSG_LOWER) ∨
   (has_digit password = false ∧ m = MSG_DIGIT) ∨
   (has_symbol password = false ∧ m = MSG_SYMBOL)) ∨
  ((rep = true ∧ m = WARN_REPEAT) ∨
   (dig = true ∧ m = WARN_END_DIGITS) ∨
   (∃ seq, sq = Some seq ∧ m = WARN_SEQUENCE seq)) ∨
  (c = true ∧ ((len password < 16 ∧ m = MSG_LEN16) ∨
               (16 ≤ len password < 20 ∧ m = MSG_LEN20))).
Proof.
  by rewrite !elem_of_app, elem_of_advice, elem_of_penalties, elem_of_hint.
Qed.
End Messages.

(** Takes a disjunction of origins apart and closes the cases where two
    different texts would be equal. *)
Ltac msg_cases H :=
  repeat match type of H with
         | _ ∨ _ => destruct H as [H | H]
         end;
  repeat match goal with
         | H' : _ ∧ _ |- _ => destruct H' as [? ?]
         | H' : ∃ _, _ |- _ => destruct H' as [? ?]
         | H' : _ ∨ _ |- _ => destruct H' as [? | ?]
         end;
  try done; try lia; try msg_discr.

(** ** The scorer, by cases *)

Section ScorerCases.
Context {U : UnicodeDB} (BLACKLIST : gset (list N)).

(** Every call takes one of the four paths, with the result of each. *)
Lemma evaluate_password_cases (password : list N) :
  (password = [] ∧
   evaluate_password BLACKLIST password =
     Return (0, py "Weak", [MSG_EMPTY])) ∨
  (password ≠ [] ∧ len password < 6 ∧
   evaluate_password BLACKLIST password =
     Return (0, py "Weak", [MSG_SHORT])) ∨
  (6 ≤ len password ∧ lower password ∈ BLACKLIST ∧
   evaluate_password BLACKLIST password =
     Return (0, py "Weak", [MSG_COMMON])) ∨
  (6 ≤ len password ∧ (lower password ∉ BLACKLIST) ∧
   ∃ rep dig sq score,
     apply_pattern_penalties password = Return (penalties rep dig sq) ∧
     score = Z.max 0 (length_bonus (len password) + class_count password
                      - (penalties rep dig sq).1) ∧
     evaluate_password BLACKLIST password =
       Return (score, category_of score,
               advice password ++ (penalties rep dig sq).2 ++
               if (4 <=? score) && (score <=? 5)
               then okay_hint (len password) else [])).
Proof.
  destruct (evaluate_password_branch BLACKLIST password)
    as [-> | [[Hne Hlen] | [[Hlen Hin] | [Hlen Hnotin]]]].
  - left. split; [done|]. apply evaluate_password_empty.
  - right; left. split; [done|]. split; [done|].
    by apply evaluate_password_short.
  - right; right; left. split; [done|]. split; [done|].
    by apply evaluate_password_common.
  - right; right; right. split; [done|]. split; [done|].
    destruct (apply_pattern_penalties_shape password)
      as (rep & dig & sq & Hpen & _).
    exists rep, dig, sq. eexists. split; [exact Hpen|]. split; [reflexivity|].
    by apply evaluate_password_scored_exact.
Qed.

Lemma class_count_range (password : list N) : 0 ≤ class_count password ≤ 4.
Proof.
  unfold class_count.
  destruct (has_upper password), (has_lower password),
           (has_digit password), (has_symbol password); simpl; lia.
Qed.

Lemma category_of_tier (score : Z) : tier score (category_of score).
Proof.
  unfold tier, category_of.
  destruct (score <=? 3) eqn:H3; [left; split; [lia|done]|].
  destruct (score <=? 5) eqn:H5; [right; left | right; right];
    (split; [lia|done]).
Qed.
End ScorerCases.

(** ** The scorer's results *)



(** X5: past the early returns, the feedback asks for a longer password
    exactly when the length is below 12, and for an uppercase letter, a
    lowercase letter, a number or a symbol exactly when the password has
    none. *)
Theorem X5_advice_iff_missing {U : UnicodeDB} (BLACKLIST : gset (list N))
    (password : list N) :
  6 ≤ len password → lower password ∉ BLACKLIST →
  ∃ score category feedback,
    evaluate_password BLACKLIST password =
      Return (score, category, feedback) ∧
    (MSG_LEN12 ∈ feedback ↔ len password < 12) ∧
    (MSG_UPPER ∈ feedback ↔ existsb isupper password = false) ∧
    (MSG_LOWER ∈ feedback ↔ existsb islower password = false) ∧
    (MSG_DIGIT ∈ feedback ↔ existsb isdigit password = false) ∧
    (MSG_SYMBOL ∈ feedback ↔
     existsb (λ c, contains [c] symbols) password = false).
Proof.
  intros Hlen Hnotin.
  destruct (evaluate_password_cases BLACKLIST password)
    as [[-> _] | [(_ & ? & _) | [(_ & ? & _) |
        (_ & _ & rep & dig & sq & score & _ & _ & ->)]]];
    [done | lia | done |].
  eexists _, _, _. split; [reflexivity|].
  fold (has_upper password) (has_lower password) (has_digit password)
       (has_symbol password).
  split_and!; rewrite elem_of_scoring_feedback;
    (split; [intros Hm; msg_cases Hm | intros Hm; left; auto 8]).
Qed.

Lemma X5_advice_iff_missing_witness :
  6 ≤ len (py "aaabbbccc111") ∧
  (@lower ascii_only (py "aaabbbccc111") ∉ (∅ : gset (list N))) ∧
  ∃ score category feedback,
    @evaluate_password ascii_only ∅ (py "aaabbbccc111") =
      Return (score, category, feedback) ∧
    (MSG_LEN12 ∈ feedback ↔ len (py "aaabbbccc111") < 12) ∧
    (MSG_UPPER ∈ feedback ↔
     existsb (@isupper ascii_only) (py "aaabbbccc111") = false) ∧
    (MSG_LOWER ∈ feedback ↔
     existsb (@islower ascii_only) (py "aaabbbccc111") = false) ∧
    (MSG_DIGIT ∈ feedback ↔
     existsb (@isdigit ascii_only) (py "aaabbbccc111") = false) ∧
    (MSG_SYMBOL ∈ feedback ↔
     existsb (λ c, contains [c] symbols) (py "aaabbbccc111") = false).
Proof.
  assert (6 ≤ len (py "aaabbbccc111")) as Hlen by (vm_compute; discriminate).
  assert (@lower ascii_only (py "aaabbbccc111") ∉ (∅ : gset (list N)))
    as Hnotin by apply not_elem_of_empty.
  split; [exact Hlen|]. split; [exact Hnotin|].
  exact (@X5_advice_iff_missing ascii_only ∅ _ Hlen Hnotin).
Defined.

(** X6: a result with no feedback at all is always "Strong": the password
    then has at least 16 characters and all four character classes, the
    detector found nothing, and the score is the length bonus plus 4. *)
Theorem X6_no_feedback_means_strong {U : UnicodeDB}
    (BLACKLIST : gset (list N)) (password : list N) (score : Z)
    (category : list N) :
  evaluate_password BLACKLIST password = Return (score, category, []) →
  category = py "Strong" ∧ 16 ≤ len password ∧ class_count password = 4 ∧
  apply_pattern_penalties password = Return (0, []) ∧
  score = length_bonus (len password) + 4.
Proof.
  destruct (evaluate_password_cases BLACKLIST password)
    as [[_ ->] | [(_ & _ & ->) | [(_ & _ & ->) |
        (_ & _ & rep & dig & sq & s & Hpen & Hs & ->)]]];
    [done | done | done |].
  intros [= <- <- Hfb].
  apply app_eq_nil in Hfb as [Hadv [Hw Hhint]%app_eq_nil].
  destruct rep, dig, sq; try done. clear Hw.
  unfold advice in Hadv. unfold class_count in *.
  destruct (len password >=? 12) eqn:H12; [|done].
  destruct (has_upper password); [|done].
  destruct (has_lower password); [|done].
  destruct (has_digit password); [|done].
  destruct (has_symbol password); [|done].
  clear Hadv. simpl in Hs.
  unfold length_bonus in *. unfold okay_hint in Hhint.
  destruct (len password >=? 20) eqn:H20.
  { assert (s = 7) as -> by lia. split; [done|]. split; [lia|]. done. }
  destruct (len password >=? 16) eqn:H16.
  { assert (s = 6) as -> by lia. split; [done|]. split; [lia|]. done. }
  rewrite H12 in Hs. assert (s = 5) as -> by lia. simpl in Hhint.
  by replace (len password <? 16) with true in Hhint by lia.
Qed.

Lemma X6_no_feedback_means_strong_witness :
  @evaluate_password ascii_only ∅ (py "Tr0ub4dor&3XyZwVu") =
    Return (6, py "Strong", []) ∧
  py "Strong" = py "Strong" ∧ 16 ≤ len (py "Tr0ub4dor&3XyZwVu") ∧
  @class_count ascii_only (py "Tr0ub4dor&3XyZwVu") = 4 ∧
  @apply_pattern_penalties ascii_only (py "Tr0ub4dor&3XyZwVu") =
    Return (0, []) ∧
  6 = length_bonus (len (py "Tr0ub4dor&3XyZwVu")) + 4.
Proof.
  assert (@evaluate_password ascii_only ∅ (py "Tr0ub4dor&3XyZwVu") =
            Return (6, py "Strong", [])) as Heval
    by (vm_compute; reflexivity).
  split; [exact Heval|].
  exact (@X6_no_feedback_means_strong ascii_only ∅ _ _ _ Heval).
Defined.

(** X7: the top score of 7 is reached only by a password of at least 20
    characters with all four character classes on which the detector
    finds nothing; the category is then "Strong" and the feedback is
    empty. *)
Theorem X7_perfect_score {U : UnicodeDB} (BLACKLIST : gset (list N))
    (password : list N) (category : list N) (feedback : list (list N)) :
  evaluate_password BLACKLIST password = Return (7, category, feedback) →
  20 ≤ len password ∧ class_count password = 4 ∧
  apply_pattern_penalties password = Return (0, []) ∧
  category = py "Strong" ∧ feedback = [].
Proof.
  destruct (evaluate_password_cases BLACKLIST password)
    as [[_ ->] | [(_ & _ & ->) | [(_ & _ & ->) |
        (_ & _ & rep & dig & sq & s & Hpen & Hs & ->)]]];
    [done | done | done |].
  intros [= -> <- <-].
  pose proof (class_count_range password) as Hc.
  pose proof (length_bonus_range (len password)) as Hb.
  pose proof (penalties_range rep dig sq) as Hp.
  assert (length_bonus (len password) = 3) as Hb3 by lia.
  assert (class_count password = 4) as Hc4 by lia.
  assert ((penalties rep dig sq).1 = 0) as Hp0 by lia.
  assert (20 ≤ len password) as H20.
  { unfold length_bonus in Hb3. repeat case_match; lia. }
  destruct rep, dig, sq; try done.
  split; [done|]. split; [done|]. split; [done|]. split; [done|].
  unfold advice, class_count in *.
  replace (len password >=? 12) with true by lia.
  destruct (has_upper password), (has_lower password),
           (has_digit password), (has_symbol password); try done.
Qed.

Lemma X7_perfect_score_witness :
  @evaluate_password ascii_only ∅ (py "Tr0ub4dor&3XyZwVuTsRq") =
    Return (7, py "Strong", []) ∧
  20 ≤ len (py "Tr0ub4dor&3XyZwVuTsRq") ∧
  @class_count ascii_only (py "Tr0ub4dor&3XyZwVuTsRq") = 4 ∧
  @apply_pattern_penalties ascii_only (py "Tr0ub4dor&3XyZwVuTsRq") =
    Return (0, []) ∧
  py "Strong" = py "Strong" ∧ @nil (list N) = [].
Proof.
  assert (@evaluate_password ascii_only ∅ (py "Tr0ub4dor&3XyZwVuTsRq") =
            Return (7, py "Strong", [])) as Heval
    by (vm_compute; reflexivity).
  split; [exact Heval|].
  exact (@X7_perfect_score ascii_only ∅ _ _ _ Heval).
Defined.

(** X8: a "Strong" result needs at least three of the four character
    classes. *)
Theorem X8_strong_needs_three_classes {U : UnicodeDB}
    (BLACKLIST : gset (list N)) (password : list N) (score : Z)
    (feedback : list (list N)) :
  evaluate_password BLACKLIST password =
    Return (score, py "Strong", feedback) →
  3 ≤ class_count password.
Proof.
  destruct (evaluate_password_cases BLACKLIST password)
    as [[_ ->] | [(_ & _ & ->) | [(_ & _ & ->) |
        (_ & _ & rep & dig & sq & s & Hpen & Hs & ->)]]];
    try (intros Heq; by vm_compute in Heq).
  intros [= <- Hcat _].
  pose proof (category_of_tier s) as Ht.
  apply tier_bands in Ht as (_ & _ & [Hstrong _]).
  specialize (Hstrong Hcat).
  pose proof (length_bonus_range (len password)).
  pose proof (penalties_range rep dig sq). lia.
Qed.

Lemma X8_strong_needs_three_classes_witness :
  @evaluate_password ascii_only ∅ (py "Tr0ub4dor&3XyZwVu") =
    Return (6, py "Strong", []) ∧
  3 ≤ @class_count ascii_only (py "Tr0ub4dor&3XyZwVu").
Proof.
  assert (@evaluate_password ascii_only ∅ (py "Tr0ub4dor&3XyZwVu") =
            Return (6, py "Strong", [])) as Heval
    by (vm_compute; reflexivity).
  split; [exact Heval|].
  exact (@X8_strong_needs_three_classes ascii_only ∅ _ _ _ Heval).
Defined.

(** The feedback of the scoring stage holds none of the three messages of
    the early returns. *)
Lemma scoring_feedback_not_early {U : UnicodeDB} (password : list N)
    rep dig sq (c : bool) (m : list N) :
  m ∈ [MSG_EMPTY; MSG_SHORT; MSG_COMMON] →
  m ∉ advice password ++ (penalties rep dig sq).2 ++
      (if c then okay_hint (len password) else []).
Proof.
  rewrite elem_of_scoring_feedback, !elem_of_cons, elem_of_nil.
  intros Hm Hin.
  destruct Hm as [-> | [-> | [-> | []]]]; msg_cases Hin.
Qed.

Lemma Return_feedback_inj {A B C : Type} (a a' : A) (b b' : B) (c c' : C) :
  Return (a, b, c) = Return (a', b', c') → c = c'.
Proof. by intros [= _ _ ->]. Qed.

Lemma evaluate_password_rejected_iff {U : UnicodeDB}
    (BLACKLIST : gset (list N)) (password : list N) :
  evaluate_password BLACKLIST password =
    Return (0, py "Weak", [MSG_COMMON]) ↔
  6 ≤ len password ∧ lower password ∈ BLACKLIST.
Proof.
  destruct (evaluate_password_cases BLACKLIST password)
    as [[-> ->] | [(? & ? & ->) | [(? & ? & ->) |
        (? & ? & rep & dig & sq & s & Hpen & Hs & ->)]]].
  - split; [intros Heq; by vm_compute in Heq | by intros [? _]].
  - split; [intros Heq; by vm_compute in Heq | intros [? _]; lia].
  - done.
  - split; [|by intros [_ ?]].
    intros Hfb%Return_feedback_inj.
    destruct (scoring_feedback_not_early password rep dig sq
                ((4 <=? s) && (s <=? 5)) MSG_COMMON).
    + rewrite !elem_of_cons. auto.
    + rewrite Hfb. by left.
Qed.

(** X9: the result is the commonly-used rejection exactly when the
    password has at least 6 characters and its lowercase form is in the
    blacklist; no other path produces that triple. *)
Theorem X9_rejected_iff {U : UnicodeDB} (BLACKLIST : gset (list N))
    (password : list N) :
  evaluate_password BLACKLIST password =
    Return (0, py "Weak", [MSG_COMMON]) ↔
  6 ≤ len password ∧ lower password ∈ BLACKLIST.
Proof. apply evaluate_password_rejected_iff. Qed.

Lemma X9_rejected_iff_witness :
  6 ≤ len (py "PassWord") ∧
  @lower ascii_only (py "PassWord") ∈ ({[ py "password" ]} : gset (list N)) ∧
  @evaluate_password ascii_only {[ py "password" ]} (py "PassWord") =
    Return (0, py "Weak", [MSG_COMMON]).
Proof.
  assert (6 ≤ len (py "PassWord")) as Hlen by (vm_compute; discriminate).
  assert (@lower ascii_only (py "PassWord")
            ∈ ({[ py "password" ]} : gset (list N))) as Hin
    by (apply elem_of_singleton; vm_compute; reflexivity).
  split; [exact Hlen|]. split; [exact Hin|].
  exact (proj2 (@X9_rejected_iff ascii_only _ _) (conj Hlen Hin)).
Defined.

(** X10: the result is the empty-password triple exactly for the empty
    string, and the too-short triple exactly for a nonempty string of
    fewer than 6 characters, whatever the blacklist holds. *)
Theorem X10_early_returns_iff {U : UnicodeDB} (BLACKLIST : gset (list N))
    (password : list N) :
  (evaluate_password BLACKLIST password =
     Return (0, py "Weak", [MSG_EMPTY]) ↔ password = []) ∧
  (evaluate_password BLACKLIST password =
     Return (0, py "Weak", [MSG_SHORT]) ↔
   password ≠ [] ∧ len password < 6).
Proof.
  destruct (evaluate_password_cases BLACKLIST password)
    as [[-> ->] | [(? & ? & ->) | [(? & ? & ->) |
        (? & ? & rep & dig & sq & s & Hpen & Hs & ->)]]].
  - split; [done|]. split; [intros Heq; by vm_compute in Heq | by intros [? _]].
  - split; [|done]. split; [intros Heq; by vm_compute in Heq | done].
  - split; (split; [intros Heq; by vm_compute in Heq|]).
    + intros ->. by vm_compute in H.
    + intros [_ ?]. lia.
  - split; split.
    + intros Hfb%Return_feedback_inj.
      destruct (scoring_feedback_not_early password rep dig sq
                  ((4 <=? s) && (s <=? 5)) MSG_EMPTY).
      * rewrite !elem_of_cons. auto.
      * rewrite Hfb. by left.
    + intros ->. by vm_compute in H.
    + intros Hfb%Return_feedback_inj.
      destruct (scoring_feedback_not_early password rep dig sq
                  ((4 <=? s) && (s <=? 5)) MSG_SHORT).
      * rewrite !elem_of_cons. auto.
      * rewrite Hfb. by left.
    + intros [_ ?]. lia.
Qed.

(** X11: the hint at 16+ characters is in the feedback exactly when the
    category is "Okay" and the password is shorter than 16; the hint at
    20+ characters exactly when the category is "Okay" and the length is
    16 to 19. *)
Theorem X11_length_hints_iff {U : UnicodeDB} (BLACKLIST : gset (list N))
    (password : list N) :
  ∃ score category feedback,
    evaluate_password BLACKLIST password =
      Return (score, category, feedback) ∧
    (MSG_LEN16 ∈ feedback ↔ category = py "Okay" ∧ len password < 16) ∧
    (MSG_LEN20 ∈ feedback ↔
     category = py "Okay" ∧ 16 ≤ len password < 20).
Proof.
  destruct (evaluate_password_cases BLACKLIST password)
    as [[-> ->] | [(? & ? & ->) | [(? & ? & ->) |
        (? & ? & rep & dig & sq & s & Hpen & Hs & ->)]]].
  1-3: eexists _, _, _; (split; [reflexivity|]);
    rewrite !list_elem_of_singleton;
    split; (split; [intros Heq; by vm_compute in Heq
                   | intros [Heq _]; by vm_compute in Heq]).
  eexists _, _, _. split; [reflexivity|].
  assert (category_of s = py "Okay" ↔ (4 <=? s) && (s <=? 5) = true)
    as Hokay.
  { destruct (tier_bands _ _ (category_of_tier s)) as (_ & -> & _). lia. }
  rewrite Hokay.
  split; rewrite elem_of_scoring_feedback;
    (split; [intros Hm; msg_cases Hm | intros [? ?]; right; right; auto]).
Qed.

(** X12: adding entries to the blacklist changes a result only into the
    commonly-used rejection. *)
Theorem X12_blacklist_growth {U : UnicodeDB}
    (BLACKLIST BLACKLIST' : gset (list N)) (password : list N) :
  BLACKLIST ⊆ BLACKLIST' →
  evaluate_password BLACKLIST' password =
    evaluate_password BLACKLIST password ∨
  evaluate_password BLACKLIST' password =
    Return (0, py "Weak", [MSG_COMMON]).
Proof.
  intros Hsub.
  destruct (evaluate_password_branch BLACKLIST' password)
    as [-> | [[Hne Hlen] | [[Hlen Hin] | [Hlen Hnotin]]]].
  - by left.
  - left. by rewrite !evaluate_password_short.
  - right. by apply evaluate_password_common.
  - left. unfold evaluate_password.
    rewrite (bool_decide_eq_false_2 (lower _ ∈ BLACKLIST')) by done.
    rewrite (bool_decide_eq_false_2 (lower _ ∈ BLACKLIST)); [done|].
    intros Hin. apply Hnotin. by apply Hsub.
Qed.

Lemma X12_blacklist_growth_witness :
  (∅ : gset (list N)) ⊆ {[ py "password" ]} ∧
  (@evaluate_password ascii_only {[ py "password" ]} (py "PassWord") =
     @evaluate_password ascii_only ∅ (py "PassWord") ∨
   @evaluate_password ascii_only {[ py "password" ]} (py "PassWord") =
     Return (0, py "Weak", [MSG_COMMON])).
Proof.
  assert ((∅ : gset (list N)) ⊆ {[ py "password" ]}) as Hsub
    by apply empty_subseteq.
  split; [exact Hsub|].
  exact (@X12_blacklist_growth ascii_only _ _ (py "PassWord") Hsub).
Defined.

(** ** The view *)


(** X14: a POST whose form has no [password] field is answered like an
    empty password: score 0, "Weak", and the cannot-be-empty message. *)
Theorem X14_index_missing_field {U : UnicodeDB} (BLACKLIST : gset (list N))
    (fields : gmap (list N) (list N)) :
  fields !! py "password" = None →
  index BLACKLIST (POST fields) =
    Return {| template := py "index.html"; kw_score := Some 0;
              kw_category := Some (py "Weak");
              kw_feedback := [py "Password cannot be empty."] |}.
Proof.
  intros Hnone. unfold index, POST. cbn [method form].
  rewrite bool_decide_eq_true_2 by done. by rewrite Hnone.
Qed.

Lemma X14_index_missing_field_witness :
  ({[ py "user" := py "alice" ]} : gmap (list N) (list N)) !! py "password"
    = None ∧
  @index ascii_only ∅ (POST {[ py "user" := py "alice" ]}) =
    Return {| template := py "index.html"; kw_score := Some 0;
              kw_category := Some (py "Weak");
              kw_feedback := [py "Password cannot be empty."] |}.
Proof.
  assert (({[ py "user" := py "alice" ]} : gmap (list N) (list N))
            !! py "password" = None) as Hnone
    by (vm_compute; reflexivity).
  split; [exact Hnone|].
  exact (@X14_index_missing_field ascii_only ∅ _ Hnone).
Defined.

(** ** The blacklist loader *)

Section Loader.
Context {U : UnicodeDB}.

Lemma read_lines_readable (lines : list (list N)) (S : gset (list N)) :
  (read_lines (Return <$> lines) S).2 = None ∧
  ∀ p, p ∈ (read_lines (Return <$> lines) S).1 ↔
       p ∈ S ∨ (p ≠ [] ∧ ∃ line, line ∈ lines ∧ p = lower (strip line)).
Proof.
  revert S. induction lines as [|line lines IH]; intros S.
  - split; [done|]. intros p. split; [by left|].
    intros [? | (_ & line & []%elem_of_nil & _)]. done.
  - rewrite fmap_cons. cbn [read_lines]. case_bool_decide as Hne.
    + destruct (IH ({[ lower (strip line) ]} ∪ S)) as [-> IHin].
      split; [done|]. intros p. rewrite IHin, elem_of_union,
        elem_of_singleton. split.
      * intros [[-> | ?] | (? & l & ? & ?)]; [right|by left|right].
        -- split; [done|]. exists line. split; [left | done].
        -- split; [done|]. exists l. split; [by right | done].
      * intros [? | (? & l & [-> | ?]%elem_of_cons & ->)];
          [by left; right | by left; left |].
        right. split; [done|]. by exists l.
    + destruct (IH S) as [-> IHin].
      split; [done|]. intros p. rewrite IHin. split.
      * intros [? | (? & l & ? & ?)]; [by left|right].
        split; [done|]. exists l. split; [by right | done].
      * intros [? | (? & l & [-> | ?]%elem_of_cons & ->)];
          [by left | done |].
        right. split; [done|]. by exists l.
Qed.

Lemma read_lines_no_empty (f : list (result (list N))) (S : gset (list N)) :
  [] ∉ S → [] ∉ (read_lines f S).1.
Proof.
  revert S. induction f as [|[line|e] f IH]; intros S HS; simpl; [done| |done].
  case_bool_decide as Hne; apply IH; [|done].
  rewrite elem_of_union, elem_of_singleton. by intros [? | ?].
Qed.

Lemma read_lines_raise (good : list (list N)) (e : exn)
    (rest : list (result (list N))) (S : gset (list N)) :
  (read_lines ((Return <$> good) ++ Raise e :: rest) S).2 = Some e.
Proof.
  revert S. induction good as [|line good IH]; intros S; [done|].
  rewrite fmap_cons, <- app_comm_cons. cbn [read_lines].
  by case_bool_decide.
Qed.
End Loader.

(** X15: whatever the file system does, [load_blacklist] either returns
    a set or raises an exception that is not [FileNotFoundError]; when it
    raises, nothing was logged. *)
Theorem X15_never_file_not_found {U : UnicodeDB} (fs : filesystem)
    (path : list N) :
  (∃ log S, load_blacklist fs path = (log, Return S)) ∨
  (∃ e, load_blacklist fs path = ([], Raise e) ∧ e ≠ FileNotFoundError).
Proof.
  unfold load_blacklist.
  destruct (fs path) as [f|e]; [destruct (read_lines f ∅) as [S [e|]]|];
    try destruct e;
    first [ left; by eexists _, _ | right; by eexists ].
Qed.

(** X16: an exception of [open] other than [FileNotFoundError] is not
    handled: the call raises it and logs nothing. *)
Theorem X16_open_error_propagates {U : UnicodeDB} (fs : filesystem)
    (path : list N) (e : exn) :
  fs path = Raise e → e ≠ FileNotFoundError →
  load_blacklist fs path = ([], Raise e).
Proof.
  intros Hopen Hne. unfold load_blacklist. rewrite Hopen.
  by destruct e.
Qed.

Lemma X16_open_error_propagates_witness :
  fs_denied (py "blacklist.txt") = Raise PermissionError ∧
  PermissionError ≠ FileNotFoundError ∧
  @load_blacklist ascii_only fs_denied (py "blacklist.txt") =
    ([], Raise PermissionError).
Proof.
  assert (fs_denied (py "blacklist.txt") = Raise PermissionError) as Hopen
    by reflexivity.
  assert (PermissionError ≠ FileNotFoundError) as Hne by discriminate.
  split; [exact Hopen|]. split; [exact Hne|].
  exact (@X16_open_error_propagates ascii_only fs_denied _ _ Hopen Hne).
Defined.

(** X17: an exception raised while the lines are read (a line that does
    not decode, say), other than [FileNotFoundError], is not handled
    either: the call raises it, whatever was read before. *)
Theorem X17_read_error_propagates {U : UnicodeDB} (fs : filesystem)
    (path : list N) (good : list (list N)) (e : exn)
    (rest : list (result (list N))) :
  fs path = Return ((Return <$> good) ++ Raise e :: rest) →
  e ≠ FileNotFoundError →
  load_blacklist fs path = ([], Raise e).
Proof.
  intros Hopen Hne. unfold load_blacklist. rewrite Hopen.
  pose proof (read_lines_raise good e rest ∅) as Hraise.
  destruct (read_lines _ ∅) as [S raised]. simpl in Hraise. subst raised.
  by destruct e.
Qed.

Lemma X17_read_error_propagates_witness :
  fs_events ((Return <$> [py "hunter2" ++ [10%N]]) ++
             Raise UnicodeDecodeError :: []) (py "blacklist.txt") =
    Return ((Return <$> [py "hunter2" ++ [10%N]]) ++
            Raise UnicodeDecodeError :: []) ∧
  UnicodeDecodeError ≠ FileNotFoundError ∧
  @load_blacklist ascii_only
     (fs_events ((Return <$> [py "hunter2" ++ [10%N]]) ++
                 Raise UnicodeDecodeError :: []))
     (py "blacklist.txt") =
    ([], Raise UnicodeDecodeError).
Proof.
  assert (fs_events ((Return <$> [py "hunter2" ++ [10%N]]) ++
                     Raise UnicodeDecodeError :: []) (py "blacklist.txt") =
          Return ((Return <$> [py "hunter2" ++ [10%N]]) ++
                  Raise UnicodeDecodeError :: [])) as Hopen by reflexivity.
  assert (UnicodeDecodeError ≠ FileNotFoundError) as Hne by discriminate.
  split; [exact Hopen|]. split; [exact Hne|].
  exact (@X17_read_error_propagates ascii_only _ _ _ _ _ Hopen Hne).
Defined.

(** X18: for a file whose lines all decode, the call logs nothing and
    returns the set of the stripped, lowercased lines that are not empty:
    blank lines are skipped, duplicates collapse and the order of the
    lines does not matter. *)
Theorem X18_readable_file {U : UnicodeDB} (fs : filesystem)
    (path : list N) (lines : list (list N)) :
  fs path = Return (Return <$> lines) →
  ∃ S : gset (list N),
    load_blacklist fs path = ([], Return S) ∧
    ∀ p, p ∈ S ↔
         p ≠ [] ∧ ∃ line, line ∈ lines ∧ p = lower (strip line).
Proof.
  intros Hopen. unfold load_blacklist. rewrite Hopen.
  destruct (read_lines_readable lines ∅) as [Hnone Hin].
  destruct (read_lines _ ∅) as [S raised]. simpl in *. subst raised.
  exists S. split; [done|]. intros p. rewrite Hin.
  split; [intros [[]%not_elem_of_empty | ?]; done | by right].
Qed.

Lemma X18_readable_file_witness :
  fs_lines [py " Hunter2 " ++ [10%N]; [10%N]; py "hunter2" ++ [10%N]]
    (py "blacklist.txt") =
    Return (Return <$>
              [py " Hunter2 " ++ [10%N]; [10%N]; py "hunter2" ++ [10%N]]) ∧
  ∃ S : gset (list N),
    @load_blacklist ascii_only
      (fs_lines [py " Hunter2 " ++ [10%N]; [10%N]; py "hunter2" ++ [10%N]])
      (py "blacklist.txt") = ([], Return S) ∧
    ∀ p, p ∈ S ↔
         p ≠ [] ∧
         ∃ line,
           line ∈ [py " Hunter2 " ++ [10%N]; [10%N]; py "hunter2" ++ [10%N]] ∧
           p = @lower ascii_only (@strip ascii_only line).
Proof.
  assert (fs_lines [py " Hunter2 " ++ [10%N]; [10%N]; py "hunter2" ++ [10%N]]
            (py "blacklist.txt") =
          Return (Return <$>
            [py " Hunter2 " ++ [10%N]; [10%N]; py "hunter2" ++ [10%N]]))
    as Hopen by reflexivity.
  split; [exact Hopen|].
  exact (@X18_readable_file ascii_only _ _ _ Hopen).
Defined.

(** X19: whenever [load_blacklist] returns, the set it returns does not
    hold the empty string. *)
Theorem X19_no_empty_entry {U : UnicodeDB} (fs : filesystem)
    (path : list N) (S : gset (list N)) :
  (load_blacklist fs path).2 = Return S → [] ∉ S.
Proof.
  unfold load_blacklist.
  destruct (fs path) as [f|e].
  - pose proof (read_lines_no_empty f ∅ (not_elem_of_empty _)) as Hno.
    destruct (read_lines f ∅) as [S' [e|]]; simpl in *.
    + destruct e; simpl; try done; by intros [= <-].
    + by intros [= <-].
  - destruct e; simpl; try done. intros [= <-]. apply not_elem_of_empty.
Qed.

Lemma X19_no_empty_entry_witness :
  (@load_blacklist ascii_only (fs_lines [[10%N]; py "abc" ++ [10%N]])
     (py "blacklist.txt")).2 = Return {[ py "abc" ]} ∧
  [] ∉ ({[ py "abc" ]} : gset (list N)).
Proof.
  assert ((@load_blacklist ascii_only (fs_lines [[10%N]; py "abc" ++ [10%N]])
             (py "blacklist.txt")).2 = Return {[ py "abc" ]}) as Hload
    by (vm_compute; reflexivity).
  split; [exact Hload|].
  exact (@X19_no_empty_entry ascii_only _ _ _ Hload).
Defined.

(** ** Loading, then scoring *)

(** X20: a password of at least 6 characters whose lowercase form equals
    the stripped, lowercased text of some line of a readable blacklist
    file is rejected as commonly used by the scorer run on the loaded
    set. *)
Theorem X20_listed_password_rejected {U : UnicodeDB} (fs : filesystem)
    (path : list N) (lines : list (list N)) (line password : list N) :
  fs path = Return (Return <$> lines) →
  line ∈ lines → lower (strip line) = lower password →
  lower password ≠ [] → 6 ≤ len password →
  ∃ BLACKLIST : gset (list N),
    load_blacklist fs path = ([], Return BLACKLIST) ∧
    evaluate_password BLACKLIST password =
      Return (0, py "Weak",
              [py "This password is commonly used. Choose a different one."]).
Proof.
  intros Hopen Hline Heq Hne Hlen. unfold load_blacklist. rewrite Hopen.
  destruct (read_lines_readable lines ∅) as [Hnone Hin].
  destruct (read_lines _ ∅) as [S raised]. simpl in *. subst raised.
  exists S. split; [done|].
  apply evaluate_password_common; [done|].
  apply Hin. right. split; [done|]. by exists line.
Qed.

Lemma X20_listed_password_rejected_witness :
  fs_lines [py "letmein" ++ [10%N]; py "  Hunter2 " ++ [10%N]]
    (py "blacklist.txt") =
    Return (Return <$> [py "letmein" ++ [10%N]; py "  Hunter2 " ++ [10%N]]) ∧
  py "  Hunter2 " ++ [10%N]
    ∈ [py "letmein" ++ [10%N]; py "  Hunter2 " ++ [10%N]] ∧
  @lower ascii_only (@strip ascii_only (py "  Hunter2 " ++ [10%N])) =
    @lower ascii_only (py "HUNTER2") ∧
  @lower ascii_only (py "HUNTER2") ≠ [] ∧
  6 ≤ len (py "HUNTER2") ∧
  ∃ BLACKLIST : gset (list N),
    @load_blacklist ascii_only
      (fs_lines [py "letmein" ++ [10%N]; py "  Hunter2 " ++ [10%N]])
      (py "blacklist.txt") = ([], Return BLACKLIST) ∧
    @evaluate_password ascii_only BLACKLIST (py "HUNTER2") =
      Return (0, py "Weak",
              [py "This password is commonly used. Choose a different one."]).
Proof.
  assert (fs_lines [py "letmein" ++ [10%N]; py "  Hunter2 " ++ [10%N]]
            (py "blacklist.txt") =
          Return (Return <$>
                    [py "letmein" ++ [10%N]; py "  Hunter2 " ++ [10%N]]))
    as Hopen by reflexivity.
  assert (py "  Hunter2 " ++ [10%N]
            ∈ [py "letmein" ++ [10%N]; py "  Hunter2 " ++ [10%N]]) as Hline
    by (right; left).
  assert (@lower ascii_only (@strip ascii_only (py "  Hunter2 " ++ [10%N])) =
          @lower ascii_only (py "HUNTER2")) as Heq
    by (vm_compute; reflexivity).
  assert (@lower ascii_only (py "HUNTER2") ≠ []) as Hne
    by (vm_compute; discriminate).
  assert (6 ≤ len (py "HUNTER2")) as Hlen by (vm_compute; discriminate).
  split; [exact Hopen|]. split; [exact Hline|]. split; [exact Heq|].
  split; [exact Hne|]. split; [exact Hlen|].
  exact (@X20_listed_password_rejected ascii_only _ _ _ _ _
           Hopen Hline Heq Hne Hlen).
Defined.

(** X21: when the blacklist file is absent, the set loaded is such that
    the scorer never reports a password as commonly used: every call
    returns, and the commonly-used message is not in its feedback. *)
Theorem X21_missing_file_never_common {U : UnicodeDB} (fs : filesystem)
    (path : list N) :
  fs path = Raise FileNotFoundError →
  ∃ BLACKLIST : gset (list N),
    (load_blacklist fs path).2 = Return BLACKLIST ∧
    ∀ password, ∃ score category feedback,
      evaluate_password BLACKLIST password =
        Return (score, category, feedback) ∧
      py "This password is commonly used. Choose a different one."
        ∉ feedback.
Proof.
  intros Hopen. unfold load_blacklist. rewrite Hopen. simpl.
  exists ∅. split; [done|]. intros password.
  destruct (evaluate_password_cases ∅ password)
    as [[_ ->] | [(_ & _ & ->) | [(_ & []%not_elem_of_empty & _) |
        (_ & _ & rep & dig & sq & s & _ & _ & ->)]]];
    eexists _, _, _; (split; [reflexivity|]).
  - rewrite list_elem_of_singleton. intros Heq. by vm_compute in Heq.
  - rewrite list_elem_of_singleton. intros Heq. by vm_compute in Heq.
  - apply scoring_feedback_not_early. rewrite !elem_of_cons. auto.
Qed.

Lemma X21_missing_file_never_common_witness :
  fs_missing (py "blacklist.txt") = Raise FileNotFoundError ∧
  ∃ BLACKLIST : gset (list N),
    (@load_blacklist ascii_only fs_missing (py "blacklist.txt")).2 =
      Return BLACKLIST ∧
    ∀ password, ∃ score category feedback,
      @evaluate_password ascii_only BLACKLIST password =
        Return (score, category, feedback) ∧
      py "This password is commonly used. Choose a different one."
        ∉ feedback.
Proof.
  assert (fs_missing (py "blacklist.txt") = Raise FileNotFoundError)
    as Hopen by reflexivity.
  split; [exact Hopen|].
  exact (@X21_missing_file_never_common ascii_only fs_missing _ Hopen).
Defined.

(** ** The normaliser on ASCII strings *)

Lemma ascii_forall (P : N → bool) :
  forallb P ASCII = true → ∀ c, is_ascii c = true → P c = true.
Proof.
  intros Hall c Hc. rewrite forallb_forall in Hall. apply Hall.
  unfold ASCII, is_ascii in *. apply N.ltb_lt in Hc.
  apply list_elem_of_In, list_elem_of_fmap. exists (N.to_nat c).
  split; [by rewrite N2Nat.id|].
  apply list_elem_of_In, in_seq. lia.
Qed.

Lemma concat_map_concat_map {A : Type} (f : A → list A) (s : list A) :
  concat (map f (concat (map f s))) =
  concat (map (λ a, concat (map f (f a))) s).
Proof.
  induction s as [|a s IH]; simpl; [done|].
  by rewrite map_app, concat_app, IH.
Qed.

Section Normalize.
Context {U : UnicodeDB}.

Lemma filter_Mn_ascii (s : list N) :
  forallb is_ascii s = true →
  List.filter (λ c, negb (category_is_Mn c)) s = s.
Proof.
  induction s as [|c s IH]; simpl; [done|].
  intros [Hc Hs]%andb_true_iff. unfold category_is_Mn at 1.
  rewrite Hc. simpl. by rewrite IH.
Qed.

(** On an ASCII string, [normalize] lowers each character and then looks
    it up in the table. *)
Lemma normalize_ascii (s : list N) :
  forallb is_ascii s = true →
  normalize s = concat (map (λ c, leet (ascii_lower c)) s).
Proof.
  intros Hs. unfold normalize, nfd. rewrite Hs.
  rewrite filter_Mn_ascii by done.
  unfold lower. rewrite Hs. unfold translate. by rewrite map_map.
Qed.

Lemma leet_lower_one (c : N) :
  is_ascii c = true →
  ∃ d, leet (ascii_lower c) = [d] ∧ is_ascii d = true ∧
       LEETSPEAK !! d = None ∧ ascii_lower d = d ∧
       ((65 <=? d)%N && (d <=? 90)%N) = false.
Proof.
  intros Hc.
  assert (forallb
    (λ c, match leet (ascii_lower c) with
          | [d] => is_ascii d &&
                   match LEETSPEAK !! d with None => true | _ => false end &&
                   (ascii_lower d =? d)%N &&
                   negb ((65 <=? d)%N && (d <=? 90)%N)
          | _ => false
          end) ASCII = true) as Hall by (vm_compute; reflexivity).
  apply (ascii_forall _ Hall) in Hc. simpl in Hc.
  destruct (leet (ascii_lower c)) as [|d [|? ?]]; try done.
  exists d. split; [done|].
  apply andb_true_iff in Hc as [[[? Hleet]%andb_true_iff
    ?%N.eqb_eq]%andb_true_iff ?%negb_true_iff].
  destruct (LEETSPEAK !! d); done.
Qed.

Lemma normalize_ascii_chars (s : list N) :
  forallb is_ascii s = true →
  length (normalize s) = length s ∧
  ∀ d, d ∈ normalize s →
       is_ascii d = true ∧ LEETSPEAK !! d = None ∧ ascii_lower d = d ∧
       ((65 <=? d)%N && (d <=? 90)%N) = false.
Proof.
  intros Hs. rewrite normalize_ascii by done.
  induction s as [|c s IH]; simpl.
  - split; [done|]. by intros d ?%elem_of_nil.
  - apply andb_true_iff in Hs as [Hc Hs].
    destruct (leet_lower_one c Hc) as (d & -> & Hd).
    destruct (IH Hs) as [IHlen IHin]. simpl. split; [by rewrite IHlen|].
    intros d' [-> | ?]%elem_of_cons; auto.
Qed.

Lemma normalize_ascii_is_ascii (s : list N) :
  forallb is_ascii s = true → forallb is_ascii (normalize s) = true.
Proof.
  intros Hs. apply forallb_forall. intros d Hd%list_elem_of_In.
  by apply (normalize_ascii_chars s Hs).
Qed.
End Normalize.

(** X22: on an ASCII string [normalize] keeps the length: every character
    is replaced by exactly one character. *)
Theorem X22_normalize_keeps_length {U : UnicodeDB} (s : list N) :
  forallb is_ascii s = true → len (normalize s) = len s.
Proof.
  intros Hs. unfold len. f_equal. by apply normalize_ascii_chars.
Qed.

Lemma X22_normalize_keeps_length_witness :
  forallb is_ascii (py "P@$$w0rd!") = true ∧
  len (@normalize ascii_only (py "P@$$w0rd!")) = len (py "P@$$w0rd!").
Proof.
  assert (forallb is_ascii (py "P@$$w0rd!") = true) as Hs
    by (vm_compute; reflexivity).
  split; [exact Hs|].
  exact (@X22_normalize_keeps_length ascii_only _ Hs).
Defined.

(** X23: on an ASCII string [normalize] is idempotent: the substitution is
    one pass, and what it produces is never substituted again. *)
Theorem X23_normalize_idempotent {U : UnicodeDB} (s : list N) :
  forallb is_ascii s = true → normalize (normalize s) = normalize s.
Proof.
  intros Hs.
  rewrite (normalize_ascii (normalize s))
    by by apply normalize_ascii_is_ascii.
  rewrite (normalize_ascii s) by done.
  rewrite (concat_map_concat_map (λ c, leet (ascii_lower c))).
  f_equal. apply map_ext_in. intros c Hc.
  assert (is_ascii c = true) as Hasc.
  { rewrite forallb_forall in Hs. by apply Hs. }
  destruct (leet_lower_one c Hasc) as (d & -> & _ & Hd & Hlow & _).
  simpl. rewrite Hlow. unfold leet. rewrite Hd. simpl. done.
Qed.

Lemma X23_normalize_idempotent_witness :
  forallb is_ascii (py "P@$$w0rd!") = true ∧
  @normalize ascii_only (@normalize ascii_only (py "P@$$w0rd!")) =
    @normalize ascii_only (py "P@$$w0rd!").
Proof.
  assert (forallb is_ascii (py "P@$$w0rd!") = true) as Hs
    by (vm_compute; reflexivity).
  split; [exact Hs|].
  exact (@X23_normalize_idempotent ascii_only _ Hs).
Defined.

(** X24: the normal form of an ASCII string holds no character of the
    leetspeak table and no uppercase letter. *)
Theorem X24_normalize_output {U : UnicodeDB} (s : list N) (c : N) :
  forallb is_ascii s = true → c ∈ normalize s →
  LEETSPEAK !! c = None ∧ isupper c = false.
Proof.
  intros Hs Hc.
  destruct (normalize_ascii_chars s Hs) as [_ Hall].
  destruct (Hall c Hc) as (Hasc & Hleet & _ & Hup).
  split; [done|]. unfold isupper. by rewrite Hasc.
Qed.

Lemma X24_normalize_output_witness :
  forallb is_ascii (py "P@$$w0rd!") = true ∧
  ord "p" ∈ @normalize ascii_only (py "P@$$w0rd!") ∧
  LEETSPEAK !! ord "p" = None ∧ @isupper ascii_only (ord "p") = false.
Proof.
  assert (forallb is_ascii (py "P@$$w0rd!") = true) as Hs
    by (vm_compute; reflexivity).
  assert (ord "p" ∈ @normalize ascii_only (py "P@$$w0rd!")) as Hc
    by (vm_compute; left).
  split; [exact Hs|]. split; [exact Hc|].
  exact (@X24_normalize_output ascii_only _ _ Hs Hc).
Defined.

(** X25: [normalize] ignores the case of ASCII letters: two ASCII strings
    with the same lowercase form have the same normal form. *)
Theorem X25_normalize_ignores_case {U : UnicodeDB} (s t : list N) :
  forallb is_ascii s = true → forallb is_ascii t = true →
  lower s = lower t → normalize s = normalize t.
Proof.
  intros Hs Ht Heq. unfold normalize, nfd. rewrite Hs, Ht.
  rewrite !filter_Mn_ascii by done. by rewrite Heq.
Qed.

Lemma X25_normalize_ignores_case_witness :
  forallb is_ascii (py "P@SSW0RD") = true ∧
  forallb is_ascii (py "p@ssw0rd") = true ∧
  @lower ascii_only (py "P@SSW0RD") = @lower ascii_only (py "p@ssw0rd") ∧
  @normalize ascii_only (py "P@SSW0RD") =
    @normalize ascii_only (py "p@ssw0rd").
Proof.
  assert (forallb is_ascii (py "P@SSW0RD") = true) as Hs
    by (vm_compute; reflexivity).
  assert (forallb is_ascii (py "p@ssw0rd") = true) as Ht
    by (vm_compute; reflexivity).
  assert (@lower ascii_only (py "P@SSW0RD") =
          @lower ascii_only (py "p@ssw0rd")) as Heq
    by (vm_compute; reflexivity).
  split; [exact Hs|]. split; [exact Ht|]. split; [exact Heq|].
  exact (@X25_normalize_ignores_case ascii_only _ _ Hs Ht Heq).
Defined.
